(** * A hurricane / development-indicator pipeline: model and properties

    Shallow embedding of [ETL/transform.py], of the batch loop of
    [ETL/extract.py] and of the page loop of
    [analysis/visual_timeseries.py].

    Conventions.
    - A float64 cell is an [option Q]: [None] is NaN, [Some x] a number.
      Arithmetic is exact; the pipeline only adds, subtracts, multiplies
      and divides by a positive count.
    - A DataFrame is a block of object-dtype (text) columns followed by a
      block of float64 columns, as [extract_development_data] lays it out.
      Column labels are looked up by name, first match.
    - Python objects live in a store and are named by their address, so
      that in-place updates and fresh copies can be told apart.
    - The [print] calls of the transformers are left out; the log lines of
      the extractor and of the report loop are kept. *)

From Stdlib Require Import ZArith QArith List String Ascii DecimalString Lia Lqa.
From Stdlib Require DecimalPos DecimalZ.
From stdpp Require Import list strings.
Import ListNotations.

Open Scope Z_scope.

(** ** Cells and rows of float64 values *)

Definition value := option Q.

Definition isna (v : value) : bool :=
  match v with None => true | Some _ => false end.

Definition notna (v : value) : bool := negb (isna v).

(** [v == 0] on one cell; NaN compares false. *)
Definition eq_zero (v : value) : bool :=
  match v with Some x => Qeq_bool x 0 | None => false end.

(** [v <= k] and [v >= k] on one cell; NaN compares false. *)
Definition le_cell (v : value) (k : Q) : bool :=
  match v with Some x => Qle_bool x k | None => false end.

Definition ge_cell (v : value) (k : Q) : bool :=
  match v with Some x => Qle_bool k x | None => false end.

(** [isna().sum(axis=1)] on one row. *)
Definition nan_count (vs : list value) : Z :=
  Z.of_nat (length (List.filter isna vs)).

(** [(block == 0).all(axis=1)] on one row; true on the empty row. *)
Definition all_zero (vs : list value) : bool := forallb eq_zero vs.

(** [isna().any()] on one row. *)
Definition any_isna (vs : list value) : bool := existsb isna vs.

(** ** Gap resolution on one row

    [interpolate(method='linear')] with pandas' defaults works forward:
    cells before the first number stay NaN, a gap between two numbers is
    filled on the straight line through them (cells equally spaced), and
    cells after the last number take that last number. *)

(** Distance to, and value of, the first number of [vs]. *)
Fixpoint next_valid (vs : list value) : option (nat * Q) :=
  match vs with
  | [] => None
  | Some x :: _ => Some (O, x)
  | None :: t =>
      match next_valid t with
      | Some (d, y) => Some (S d, y)
      | None => None
      end
  end.

(** numpy's [interp] between [(0, a)] and [(n, b)] at abscissa [k]. *)
Definition lerp (a b : Q) (k n : nat) : Q :=
  Qred ((b - a) / inject_Z (Z.of_nat n) * inject_Z (Z.of_nat k) + a)%Q.

(** Cells after a number [prev]; [gap] NaN cells were passed since. *)
Fixpoint interpolate_from (prev : Q) (gap : nat) (vs : list value) : list value :=
  match vs with
  | [] => []
  | Some x :: t => Some x :: interpolate_from x O t
  | None :: t =>
      match next_valid t with
      | Some (d, y) => Some (lerp prev y (S gap) (S gap + S d))
      | None => Some prev
      end :: interpolate_from prev (S gap) t
  end.

Fixpoint interpolate (vs : list value) : list value :=
  match vs with
  | [] => []
  | None :: t => None :: interpolate t
  | Some x :: t => Some x :: interpolate_from x O t
  end.

(** [bfill]: a NaN takes the next number to its right, if any. *)
Fixpoint bfill (vs : list value) : list value :=
  match vs with
  | [] => []
  | Some x :: t => Some x :: bfill t
  | None :: t => let t' := bfill t in hd None t' :: t'
  end.

(** [ffill]: a NaN takes the last number to its left, if any. *)
Fixpoint ffill_from (prev : value) (vs : list value) : list value :=
  match vs with
  | [] => []
  | Some x :: t => Some x :: ffill_from (Some x) t
  | None :: t => prev :: ffill_from prev t
  end.

Definition ffill (vs : list value) : list value := ffill_from None vs.

(** [.interpolate(axis=1, method='linear').bfill(axis=1).ffill(axis=1)] *)
Definition resolve_gaps (vs : list value) : list value :=
  ffill (bfill (interpolate vs)).

(** ** DataFrames *)

Record Row := mkRow {
  ids : list string;   (* cells of the text columns *)
  nums : list value    (* cells of the float64 columns *)
}.

Record DataFrame := mkDataFrame {
  id_columns : list string;
  num_columns : list string;
  rows : list Row
}.

(** Exceptions the modelled code can end in. [ReferenceError] is the
    model's own: an address that was never allocated. *)
Inductive exn :=
| KeyError (label : string)
| AttributeError
| ValueError
| FileNotFoundError
| ReferenceError.

Definition result (A : Type) := (exn + A)%type.

(** [str(year)] *)
Definition str (z : Z) : string := NilZero.string_of_int (Z.to_int z).

(** [range(lo, hi)] *)
Definition range (lo hi : Z) : list Z :=
  map (fun i => lo + Z.of_nat i) (seq 0 (Z.to_nat (hi - lo))).

(** Position of the first column called [x]. *)
Fixpoint index_of (x : string) (cols : list string) : option nat :=
  match cols with
  | [] => None
  | c :: t => if String.eqb c x then Some O
              else match index_of x t with Some i => Some (S i) | None => None end
  end.

(** Positions of all [labels]; the first missing label is the [KeyError]. *)
Fixpoint positions (labels cols : list string) : result (list nat) :=
  match labels with
  | [] => inr []
  | x :: t =>
      match index_of x cols with
      | None => inl (KeyError x)
      | Some i =>
          match positions t cols with
          | inl e => inl e
          | inr ps => inr (i :: ps)
          end
      end
  end.

(** [df.loc[:, id_labels + num_labels]]: a new frame with those columns in
    that order. *)
Definition df_loc (id_labels num_labels : list string) (df : DataFrame)
  : result DataFrame :=
  match positions id_labels (id_columns df) with
  | inl e => inl e
  | inr ps =>
      match positions num_labels (num_columns df) with
      | inl e => inl e
      | inr qs =>
          inr {| id_columns := id_labels;
                 num_columns := num_labels;
                 rows := map (fun r =>
                                {| ids := map (fun i => nth i (ids r) EmptyString) ps;
                                   nums := map (fun i => nth i (nums r) None) qs |})
                             (rows df) |}
      end
  end.

(** [df.iloc[:, 2:]] of a frame that has exactly two text columns in front
    (what [df_loc] with two identity labels leaves): the float64 block. *)
Definition iloc_2 (df : DataFrame) : list (list value) := map nums (rows df).

(** [df.iloc[:, 2:].shape[1]] *)
Definition shape_1 (df : DataFrame) : Z := Z.of_nat (length (num_columns df)).

(** Replace cell [i] of a row, or append when [i] is past its end. *)
Definition set_cell (i : nat) (v : value) (vs : list value) : list value :=
  if (i <? length vs)%nat then <[i:=v]> vs else vs ++ [v].

(** [df[label] = column], in place: overwrite the column when the label
    exists, append it as last column otherwise. *)
Definition df_setitem (label : string) (column : list value) (df : DataFrame)
  : DataFrame :=
  let i := match index_of label (num_columns df) with
           | Some i => i
           | None => length (num_columns df)
           end in
  {| id_columns := id_columns df;
     num_columns := match index_of label (num_columns df) with
                    | Some _ => num_columns df
                    | None => num_columns df ++ [label]
                    end;
     rows := map (fun rv => {| ids := ids (fst rv);
                               nums := set_cell i (snd rv) (nums (fst rv)) |})
                 (combine (rows df) column) |}.

(** [df[label]]: the cells of one float64 column. *)
Definition df_getitem (label : string) (df : DataFrame) : result (list value) :=
  match index_of label (num_columns df) with
  | None => inl (KeyError label)
  | Some i => inr (map (fun r => nth i (nums r) None) (rows df))
  end.

(** [df[mask]]: a new frame with the rows whose mask entry is true. *)
Definition df_mask (mask : list bool) (df : DataFrame) : DataFrame :=
  {| id_columns := id_columns df;
     num_columns := num_columns df;
     rows := map fst (List.filter snd (combine (rows df) mask)) |}.

(** Remove position [i] from a list. *)
Definition remove_nth {A} (i : nat) (l : list A) : list A :=
  firstn i l ++ skipn (S i) l.

(** [df.drop(columns=[label])]: a new frame without that column. *)
Definition df_drop (label : string) (df : DataFrame) : result DataFrame :=
  match index_of label (num_columns df) with
  | None => inl (KeyError label)
  | Some i =>
      inr {| id_columns := id_columns df;
             num_columns := remove_nth i (num_columns df);
             rows := map (fun r => {| ids := ids r; nums := remove_nth i (nums r) |})
                         (rows df) |}
  end.

(** [df.iloc[:, 2:] = block], in place. *)
Definition df_iloc_2_assign (block : list (list value)) (df : DataFrame)
  : DataFrame :=
  {| id_columns := id_columns df;
     num_columns := num_columns df;
     rows := map (fun rv => {| ids := ids (fst rv); nums := snd rv |})
                 (combine (rows df) block) |}.

(** ** The object store

    A Python object is an entry of the store; a variable holds its
    address. A method that returns a new frame allocates; an item
    assignment overwrites the entry it is applied to. *)

Section Store.
Context {T : Type}.

Definition M (A : Type) : Type := list T -> list T * result A.

Definition ret {A} (x : A) : M A := fun s => (s, inr x).

Definition raise {A} (e : exn) : M A := fun s => (s, inl e).

Definition bind {A B} (m : M A) (k : A -> M B) : M B :=
  fun s => match m s with
           | (s', inr x) => k x s'
           | (s', inl e) => (s', inl e)
           end.

Definition lift {A} (r : result A) : M A := fun s => (s, r).

(** A fresh object; its address is the next free one. *)
Definition alloc (v : T) : M nat := fun s => (s ++ [v], inr (length s)).

Definition read (a : nat) : M T :=
  fun s => match s !! a with
           | Some v => (s, inr v)
           | None => (s, inl ReferenceError)
           end.

Definition write (a : nat) (v : T) : M unit :=
  fun s => (<[a:=v]> s, inr tt).
End Store.

Notation "'do' x <- c ; k" := (bind c (fun x => k))
  (at level 10, x name, c at level 100, k at level 200).

(** What a Python variable can hold here: [None], or a frame object. *)
Inductive pyval := PyNone | PyFrame (a : nat).

Section FrameMethods.
Context {T : Type}.

(** [obj.copy()]; [None] has no such attribute. *)
Definition copy (v : pyval) : M (T:=T) nat :=
  match v with
  | PyNone => raise AttributeError
  | PyFrame a => do x <- read a; alloc x
  end.

(** A method of object [a] that returns a new object. *)
Definition method (f : T -> result T) (a : nat) : M (T:=T) nat :=
  do x <- read a; do y <- lift (f x); alloc y.

(** An attribute or expression computed from object [a]. *)
Definition query {B} (f : T -> result B) (a : nat) : M (T:=T) B :=
  do x <- read a; lift (f x).

(** An item assignment on object [a]: the object itself changes. *)
Definition assign (f : T -> T) (a : nat) : M (T:=T) unit :=
  do x <- read a; write a (f x).
End FrameMethods.

(** ** [transform_development_data]

    Each block is one stretch of the function body; [save_to_csv] is
    [False]. The [except] clause logs and re-raises, so an exception of
    a block is the exception of the call. *)

(** Lines 46-51: copy the input, keep the two identity columns and the
    year columns of [range(df_min_year, df_max_year + 1)]. *)
Definition select_columns (development_data : pyval) (df_min_year df_max_year : Z)
  : M nat :=
  do t <- copy development_data;
  method (df_loc ["Country Code"; "Indicator Name"]%string
                 (map str (range df_min_year (df_max_year + 1)))) t.

(** Lines 58-65: count the NaN of each row into a column [NaN_count],
    keep the rows with [NaN_count <= nc_half], drop the column. *)
Definition density_filter (t : nat) : M nat :=
  do num_year_columns <- query (fun df => inr (shape_1 df)) t;
  let nc_half := num_year_columns / 2 in
  do counts <- query (fun df => inr (map nan_count (iloc_2 df))) t;
  do _ <- assign (df_setitem "NaN_count" (map (fun c => Some (inject_Z c)) counts)) t;
  do column <- query (df_getitem "NaN_count") t;
  do t <- method (fun df => inr (df_mask (map (fun v => le_cell v (inject_Z nc_half)) column) df)) t;
  method (df_drop "NaN_count") t.

(** Lines 68-70: keep the rows that are not zero in every year column. *)
Definition all_zero_filter (t : nat) : M nat :=
  do block <- query (fun df => inr (iloc_2 df)) t;
  method (fun df => inr (df_mask (map (fun vs => negb (all_zero vs)) block) df)) t.

(** Lines 79-88: when any cell of the year block is NaN, overwrite the
    block with its interpolated, back-filled and forward-filled rows. *)
Definition gap_resolution (t : nat) : M unit :=
  do block <- query (fun df => inr (iloc_2 df)) t;
  if existsb any_isna block
  then assign (df_iloc_2_assign (map resolve_gaps block)) t
  else ret tt.

Definition transform_development_data
    (development_data : pyval) (df_min_year df_max_year : Z) : M nat :=
  do t <- select_columns development_data df_min_year df_max_year;
  do t <- density_filter t;
  do t <- all_zero_filter t;
  do _ <- gap_resolution t;
  ret t.

(** ** [transform_disaster_data] *)

(** One EM-DAT event, with the columns the pipeline reads. A missing
    text or number cell is [None]. *)
Record Event := mkEvent {
  ISO : string;
  Start_Year : Z;
  Magnitude_Scale : option string;
  Magnitude : value;
  Total_Affected : value;
  Event_Name : string;
  OFDA_BHA_Response : string
}.

Definition DisasterTable := list Event.

(** [(d['Start Year'] >= lo) & (d['Start Year'] <= hi)] *)
Definition in_years (df_min_year df_max_year : Z) (e : Event) : bool :=
  (df_min_year <=? Start_Year e) && (Start_Year e <=? df_max_year).

(** [(d['Magnitude Scale'] == 'Kph') & (d['Magnitude'] >= 178)] *)
Definition major_hurricane (e : Event) : bool :=
  match Magnitude_Scale e with
  | Some s => String.eqb s "Kph"
  | None => false
  end && ge_cell (Magnitude e) 178.

(** [d['Total Affected'] >= min_total_affected] *)
Definition enough_affected (min_total_affected : Z) (e : Event) : bool :=
  ge_cell (Total_Affected e) (inject_Z min_total_affected).

(** Lines 134-160, [save_to_csv] being [False]: a copy, then three
    boolean selections, each a new table. *)
Definition transform_disaster_data
    (disaster_data : pyval) (df_min_year df_max_year min_total_affected : Z)
  : M (T:=DisasterTable) nat :=
  do t <- copy disaster_data;
  do t <- method (fun d => inr (List.filter (in_years df_min_year df_max_year) d)) t;
  do t <- method (fun d => inr (List.filter major_hurricane d)) t;
  do t <- method (fun d => inr (List.filter (enough_affected min_total_affected) d)) t;
  ret t.

(** ** [generate_report] *)

(** [s.isdigit()] on an ASCII string: not empty, decimal digits only. *)
Definition digit (c : ascii) : bool :=
  let n := nat_of_ascii c in ((48 <=? n) && (n <=? 57))%nat.

Fixpoint all_digits (s : string) : bool :=
  match s with
  | EmptyString => true
  | String c t => digit c && all_digits t
  end.

Definition isdigit (s : string) : bool :=
  match s with
  | EmptyString => false
  | _ => all_digits s
  end.

(** A vertical line of the chart: [plt.axvline(x, color, label)]. The
    colour is its position in the palette. *)
Record Marker := mkMarker {
  marker_x : string;
  marker_color : nat;
  marker_label : string
}.

(** What one figure shows when it is saved. *)
Record Page := mkPage {
  page_indicator : string;
  title : string;
  series_x : list string;
  series_y : list value;
  markers : list Marker
}.

(** Lines written to standard output. *)
Inductive LogLine :=
| InfoFound (total : nat)
| InfoProgress (i total : nat)
| WarningSkipping (indicator_name : string)
| ErrorPlot (indicator_name : string) (message : string)
| InfoSaved
| ErrorReport (e : exn).

Definition mem (x : string) (l : list string) : bool :=
  existsb (String.eqb x) l.

(** [len(dis_data['Event Name'].unique())] *)
Definition n_storms (dis_data : DisasterTable) : nat :=
  length (nodup string_dec (map Event_Name dis_data)).

(** Lines 83: no aid suffix for Puerto Rico and the U.S. *)
Definition label_suffix (country_code : string) (ofda : string) : string :=
  if mem country_code ["PRI"; "USA"]%string then ""%string
  else if String.eqb ofda "Yes" then " (US Response)"%string
       else " (No US Response)"%string.

(** Lines 79-90: one marker per event whose year is a column of the
    chart; [k] counts the colours taken from the cycle so far. *)
Fixpoint draw_markers (country_code : string) (year_cols : list string)
    (palette : nat) (k : nat) (events : list Event) : nat * list Marker :=
  match events with
  | [] => (k, [])
  | e :: rest =>
      if mem (str (Start_Year e)) year_cols
      then
        let m := {| marker_x := str (Start_Year e);
                    marker_color := (k mod palette)%nat;
                    marker_label := Event_Name e ++ label_suffix country_code (OFDA_BHA_Response e) |} in
        let (k', ms) := draw_markers country_code year_cols palette (S k) rest in
        (k', m :: ms)
      else draw_markers country_code year_cols palette k rest
  end.

(** [row[label]] for the labels of [year_cols]. *)
Definition row_values (df : DataFrame) (year_cols : list string) (r : Row)
  : list value :=
  map (fun l => match index_of l (num_columns df) with
                | Some i => nth i (nums r) None
                | None => None
                end) year_cols.

Section Report.
(** The drawing backend: [Some (taken, message)] when one of the
    matplotlib calls of the [try] block raises on this figure, [taken]
    colours having left the cycle by then. *)
Variable backend : Page -> option (nat * string).

Variable country_code : string.
Variable dev_data : DataFrame.
Variable dis_data : DisasterTable.

(** [[col for col in dev_data.columns if col.isdigit()]]; the text
    columns are named by words. *)
Definition year_cols : list string :=
  List.filter isdigit (num_columns dev_data).

Definition total_indicators : nat := length (rows dev_data).

(** Lines 57-107. [i] is the 1-based position of the row, [name_at]
    the position of the column [Indicator Name]. *)
Fixpoint pages_loop (name_at : nat) (i k : nat) (rs : list Row)
  : list Page * list LogLine :=
  match rs with
  | [] => ([], [])
  | r :: rest =>
      let indicator_name := nth name_at (ids r) EmptyString in
      let values := row_values dev_data year_cols r in
      let progress :=
        if ((i mod 100 =? 0) || (i =? total_indicators))%nat
        then [InfoProgress i total_indicators] else [] in
      if forallb isna values
      then
        let (ps, lg) := pages_loop name_at (S i) k rest in
        (ps, progress ++ WarningSkipping indicator_name :: lg)
      else
        let (k', ms) := draw_markers country_code year_cols (n_storms dis_data) k dis_data in
        let page := {| page_indicator := indicator_name;
                       title := country_code ++ ": " ++ indicator_name;
                       series_x := year_cols;
                       series_y := values;
                       markers := ms |} in
        match backend page with
        | Some (taken, message) =>
            let (ps, lg) := pages_loop name_at (S i) (k + taken) rest in
            (ps, progress ++ ErrorPlot indicator_name message :: lg)
        | None =>
            let (ps, lg) := pages_loop name_at (S i) k' rest in
            (page :: ps, progress ++ lg)
        end
  end.

(** The pages of the PDF, or the exception the call ends in, and the
    lines printed. [min(year_cols)] raises on an empty list, and
    [row['Indicator Name']] on a frame without that column; both are
    outside the inner [try]. *)
Definition generate_report : result (list Page) * list LogLine :=
  match year_cols with
  | [] => (inl ValueError, [ErrorReport ValueError])
  | _ :: _ =>
      match index_of "Indicator Name" (id_columns dev_data), rows dev_data with
      | None, _ :: _ =>
          (inl (KeyError "Indicator Name"),
           [InfoFound total_indicators; ErrorReport (KeyError "Indicator Name")])
      | None, [] => (inr [], [InfoFound total_indicators; InfoSaved])
      | Some name_at, rs =>
          let (ps, lg) := pages_loop name_at 1 0 rs in
          (inr ps, InfoFound total_indicators :: lg ++ [InfoSaved])
      end
  end.
End Report.

(** ** [extract_development_data] *)

(** What [wb.data.DataFrame] returns for one batch: time labels down,
    series across. *)
Record BatchFrame := mkBatchFrame {
  time_index : list string;
  series : list string;
  cells : list (list value)
}.

(** [df.empty]: some axis has length 0. *)
Definition empty (b : BatchFrame) : bool :=
  ((length (time_index b) =? 0) || (length (series b) =? 0))%nat.

Inductive ExtractLine :=
| FetchingBatch (number : nat)
| FailedBatch (number : nat) (message : string)
| NoDataFetched
| CreatingDataFrame
| ErrorExecuting.

Definition batch_size : nat := 100.

(** [indicators[i:i + batch_size] for i in range(0, len(indicators), batch_size)] *)
Definition batches (indicators : list string) : list (list string) :=
  map (fun k => firstn batch_size (skipn (k * batch_size) indicators))
      (seq 0 ((length indicators + (batch_size - 1)) / batch_size)%nat).

Section Extract.
(** The provider: the frame of a batch, or the message of the
    exception the request ends in; indicator ids are distinct, so a
    batch names its request. [indicators] below are the ids that
    [wb.series.list()] returned. *)
Variable fetch : list string -> string + BatchFrame.

(** Lines 74-104: concat, melt, pivot and column ordering of the
    fetched frames. *)
Variable reshape : list BatchFrame -> result DataFrame.

(** Lines 53-67; [number] is [i // batch_size + 1]. Returns
    [batch_dfs], [failed_batches] and the lines printed. *)
Fixpoint fetch_loop (number : nat) (bs : list (list string))
  : list BatchFrame * list (list string) * list ExtractLine :=
  match bs with
  | [] => ([], [], [])
  | batch :: rest =>
      let '(dfs, failed, lg) := fetch_loop (S number) rest in
      match fetch batch with
      | inr df_batch =>
          (if negb (empty df_batch) then df_batch :: dfs else dfs,
           failed,
           FetchingBatch number :: lg)
      | inl message =>
          (dfs, batch :: failed,
           FetchingBatch number :: FailedBatch number message :: lg)
      end
  end.

(** The value returned ([None] or the final frame) or the exception
    raised, and the lines printed; [save_to_csv] is [False]. *)
Definition extract_development_data (indicators : list string)
  : result (option DataFrame) * list ExtractLine :=
  let '(batch_dfs, failed_batches, lg) := fetch_loop 1 (batches indicators) in
  match batch_dfs with
  | [] => (inr None, lg ++ [NoDataFetched])
  | _ :: _ =>
      match reshape batch_dfs with
      | inr final_df => (inr (Some final_df), lg ++ [CreatingDataFrame])
      | inl e => (inl e, lg ++ [ErrorExecuting])
      end
  end.
End Extract.

(** ** [extract_disaster_data] and the driver *)

(** Lines 138-157 of [extract.py]: [emdat] is the content of the EM-DAT
    file, [None] when the file does not exist. *)
Definition extract_disaster_data (country_code : string)
    (emdat : option DisasterTable) : result DisasterTable :=
  match emdat with
  | None => inl FileNotFoundError
  | Some d => inr (List.filter (fun e => String.eqb (ISO e) country_code) d)
  end.

Inductive Outcome :=
| PipelineSucceeded (report : list Page)
| PipelineFailed.

Section Driver.
Variable fetch : list string -> string + BatchFrame.
Variable reshape : list BatchFrame -> result DataFrame.
Variable backend : Page -> option (nat * string).

(** [main.py]: the five stages in a row, the CSV and PDF files being
    writable; any exception ends in the line
    [[ERROR] Pipeline test failed.] *)
Definition main (indicators : list string) (emdat : option DisasterTable)
  : Outcome :=
  match fst (extract_development_data fetch reshape indicators) with
  | inl _ => PipelineFailed
  | inr development_data =>
      match extract_disaster_data "PRI" emdat with
      | inl _ => PipelineFailed
      | inr disaster_data =>
          let '(s, dev) :=
            match development_data with
            | None => ([], PyNone)
            | Some df => ([df], PyFrame 0)
            end in
          match transform_development_data dev 2007 2023 s with
          | (_, inl _) => PipelineFailed
          | (s', inr t) =>
              match transform_disaster_data (PyFrame 0) 2007 2023 500000
                                            [disaster_data] with
              | (_, inl _) => PipelineFailed
              | (d', inr u) =>
                  match s' !! t, d' !! u with
                  | Some dev_t, Some dis_t =>
                      match fst (generate_report backend "PRI" dev_t dis_t) with
                      | inl _ => PipelineFailed
                      | inr pages => PipelineSucceeded pages
                      end
                  | _, _ => PipelineFailed
                  end
              end
          end
      end
  end.
End Driver.

(** ** Vocabulary of the statements *)

(** Every row has one cell per float64 column. *)
Definition rectangular (df : DataFrame) : Prop :=
  Forall (fun r => length (nums r) = length (num_columns df)) (rows df).

(** The frame [df] with other rows under the same header. *)
Definition with_rows (df : DataFrame) (rs : list Row) : DataFrame :=
  {| id_columns := id_columns df; num_columns := num_columns df; rows := rs |}.

(** The row [r] with other float64 cells. *)
Definition with_nums (r : Row) (vs : list value) : Row :=
  {| ids := ids r; nums := vs |}.

(** The labels [select_columns] asks for. *)
Definition identity_labels : list string := ["Country Code"; "Indicator Name"]%string.

Definition year_labels (df_min_year df_max_year : Z) : list string :=
  map str (range df_min_year (df_max_year + 1)).

(** The density test on one row of a frame with [n] year columns. *)
Definition dense (n : Z) (r : Row) : bool := nan_count (nums r) <=? n / 2.

(** The all-zero test on one row. *)
Definition zero_row (r : Row) : bool := all_zero (nums r).

(** Gap resolution on one row. *)
Definition resolved (r : Row) : Row := with_nums r (resolve_gaps (nums r)).

(** What the frame [t] left by [select_columns] becomes. *)
Definition kept_rows (t : DataFrame) : list Row :=
  List.filter (fun r => negb (zero_row r))
              (List.filter (dense (shape_1 t)) (rows t)).

Definition transformed (t : DataFrame) : DataFrame :=
  with_rows t (if existsb any_isna (map nums (kept_rows t))
               then map resolved (kept_rows t)
               else kept_rows t).

(** ** Sample tables *)

(** Four indicators of one country over 2017-2024: one with gaps, one
    that is zero throughout 2018-2023, one mostly missing, one complete. *)
Definition wdi_sample : DataFrame :=
  {| id_columns := ["Country Name"; "Country Code"; "Indicator Name"; "Indicator Code"]%string;
     num_columns := ["2017"; "2018"; "2019"; "2020"; "2021"; "2022"; "2023"; "2024"]%string;
     rows :=
       [ {| ids := ["Puerto Rico"; "PRI"; "GDP"; "NY.GDP"]%string;
            nums := [Some 1%Q; None; Some 10%Q; None; Some 20%Q; None; Some 25%Q; Some 3%Q] |};
         {| ids := ["Puerto Rico"; "PRI"; "Zero"; "ZZ"]%string;
            nums := [Some 1%Q; Some 0%Q; Some 0%Q; Some 0%Q; Some 0%Q; Some 0%Q; Some 0%Q; Some 3%Q] |};
         {| ids := ["Puerto Rico"; "PRI"; "Sparse"; "SP"]%string;
            nums := [Some 1%Q; None; None; None; None; Some 0%Q; Some 0%Q; Some 3%Q] |};
         {| ids := ["Puerto Rico"; "PRI"; "Full"; "FF"]%string;
            nums := [Some 1%Q; Some 1%Q; Some 2%Q; Some 3%Q; Some 4%Q; Some 5%Q; Some 6%Q; Some 3%Q] |} ] |}.

(** [wdi_sample] after [select_columns] for 2018-2023. *)
Definition selected_sample : DataFrame :=
  {| id_columns := identity_labels;
     num_columns := year_labels 2018 2023;
     rows :=
       [ {| ids := ["PRI"; "GDP"]%string;
            nums := [None; Some 10%Q; None; Some 20%Q; None; Some 25%Q] |};
         {| ids := ["PRI"; "Zero"]%string;
            nums := [Some 0%Q; Some 0%Q; Some 0%Q; Some 0%Q; Some 0%Q; Some 0%Q] |};
         {| ids := ["PRI"; "Sparse"]%string;
            nums := [None; None; None; None; Some 0%Q; Some 0%Q] |};
         {| ids := ["PRI"; "Full"]%string;
            nums := [Some 1%Q; Some 2%Q; Some 3%Q; Some 4%Q; Some 5%Q; Some 6%Q] |} ] |}.

(** One indicator over 2018-2023 with leading, inner and trailing gaps. *)
Definition gap_sample : DataFrame :=
  {| id_columns := identity_labels;
     num_columns := year_labels 2018 2023;
     rows := [ {| ids := ["PRI"; "GDP"]%string;
                  nums := [None; None; Some 10%Q; None; Some 20%Q; None] |} ] |}.

(** Three events of one country: a major hurricane with 500000 people
    affected, one with 499999, and a flood. *)
Definition emdat_sample : DisasterTable :=
  [ {| ISO := "PRI"; Start_Year := 2017; Magnitude_Scale := Some "Kph"%string;
       Magnitude := Some 250%Q; Total_Affected := Some 500000%Q;
       Event_Name := "Maria"; OFDA_BHA_Response := "No" |};
    {| ISO := "PRI"; Start_Year := 2017; Magnitude_Scale := Some "Kph"%string;
       Magnitude := Some 178%Q; Total_Affected := Some 499999%Q;
       Event_Name := "Irma"; OFDA_BHA_Response := "No" |};
    {| ISO := "PRI"; Start_Year := 2019; Magnitude_Scale := Some "Km2"%string;
       Magnitude := None; Total_Affected := None;
       Event_Name := "Flood"; OFDA_BHA_Response := "Yes" |} ].

(** The three tests of [transform_disaster_data] on one event. *)
Definition retained (df_min_year df_max_year min_total_affected : Z) (e : Event)
  : bool :=
  in_years df_min_year df_max_year e && major_hurricane e
  && enough_affected min_total_affected e.

(** Reading the report loop: the name of a row, whether the loop skips
    it, and the plot errors and skip warnings among the lines printed. *)
Definition indicator_at (name_at : nat) (r : Row) : string :=
  nth name_at (ids r) EmptyString.

Definition skipped (dev_data : DataFrame) (r : Row) : bool :=
  forallb isna (row_values dev_data (year_cols dev_data) r).

Definition plot_errors (lg : list LogLine) : list (string * string) :=
  flat_map (fun l => match l with
                     | ErrorPlot n m => [(n, m)]
                     | _ => []
                     end) lg.

Definition skip_warnings (lg : list LogLine) : list string :=
  flat_map (fun l => match l with
                     | WarningSkipping n => [n]
                     | _ => []
                     end) lg.

Definition is_some {A} (o : option A) : bool :=
  match o with Some _ => true | None => false end.

(** Five indicators over 2018-2020; a backend that cannot draw [I3]. *)
Definition report_sample : DataFrame :=
  {| id_columns := identity_labels;
     num_columns := ["2018"; "2019"; "2020"]%string;
     rows := map (fun n => {| ids := ["PRI"%string; n];
                              nums := [Some 1%Q; Some 2%Q; Some 3%Q] |})
                 ["I1"; "I2"; "I3"; "I4"; "I5"]%string |}.

Definition fails_on_I3 (name : string) : option (nat * string) :=
  if String.eqb name "I3" then Some (O, "cannot draw"%string) else None.

(** The rows that get a page, and the rows whose drawing fails, when
    [bad] tells for an indicator whether the backend raises. *)
Definition drawn (dev_data : DataFrame) (bad : string -> option (nat * string))
    (name_at : nat) (r : Row) : bool :=
  negb (skipped dev_data r) && negb (is_some (bad (indicator_at name_at r))).

Definition undrawn (dev_data : DataFrame) (bad : string -> option (nat * string))
    (name_at : nat) (r : Row) : bool :=
  negb (skipped dev_data r) && is_some (bad (indicator_at name_at r)).

(** Reading the batch loop: the frames it keeps, and the numbers of the
    batches reported as failed. *)
Definition usable_frames (fetch : list string -> string + BatchFrame)
    (bs : list (list string)) : list BatchFrame :=
  flat_map (fun b => match fetch b with
                     | inr df => if empty df then [] else [df]
                     | inl _ => []
                     end) bs.

Definition raises (fetch : list string -> string + BatchFrame) (b : list string)
  : bool :=
  match fetch b with inl _ => true | inr _ => false end.

Definition failed_numbers (lg : list ExtractLine) : list nat :=
  flat_map (fun l => match l with
                     | FailedBatch k _ => [k]
                     | _ => []
                     end) lg.

(** A provider that answers every request with a frame without rows,
    one that answers only the batches that begin with indicator [A],
    and a reshaping that never fails. *)
Definition fetch_nothing (batch : list string) : string + BatchFrame :=
  inr {| time_index := []; series := batch; cells := [] |}.

Definition fetch_only_A (batch : list string) : string + BatchFrame :=
  match batch with
  | "A"%string :: _ =>
      inr {| time_index := ["YR2020"%string]; series := batch;
             cells := [map (fun _ => Some 1%Q) batch] |}
  | _ => inl "timeout"%string
  end.

Definition reshape_sample (frames : list BatchFrame) : result DataFrame :=
  inr {| id_columns := ["Country Name"; "Country Code"; "Indicator Name"; "Indicator Code"]%string;
         num_columns := [];
         rows := [] |}.

(** All numbers of a row lie between [lo] and [hi]. *)
Definition bounded (lo hi : Q) (vs : list value) : Prop :=
  Forall (fun v => match v with
                   | Some x => (lo <= x <= hi)%Q
                   | None => True
                   end) vs.

(** An indicator that is zero where it is known, over 2018-2020. *)
Definition zero_gap_sample : DataFrame :=
  {| id_columns := ["Country Name"; "Country Code"; "Indicator Name"; "Indicator Code"]%string;
     num_columns := ["2018"; "2019"; "2020"]%string;
     rows := [ {| ids := ["Puerto Rico"; "PRI"; "Quiet"; "QQ"]%string;
                  nums := [Some 0%Q; None; Some 0%Q] |} ] |}.

(** The events that get a marker on a chart with columns [year_cols]. *)
Definition marked (year_cols : list string) (events : DisasterTable) : DisasterTable :=
  List.filter (fun e => mem (str (Start_Year e)) year_cols) events.

(** What every page of a report shows: the year columns on the x axis,
    one value per year and a number among them, the title made of
    country code and indicator, and marker colours of the palette. *)
Definition page_ok (country_code : string) (dev_data : DataFrame)
    (dis_data : DisasterTable) (p : Page) : Prop :=
  series_x p = year_cols dev_data
  /\ length (series_y p) = length (year_cols dev_data)
  /\ existsb notna (series_y p) = true
  /\ title p = (country_code ++ ": " ++ page_indicator p)%string
  /\ map marker_x (markers p)
     = map (fun e => str (Start_Year e)) (marked (year_cols dev_data) dis_data)
  /\ forall m, In m (markers p) -> (marker_color m < n_storms dis_data)%nat.


(** A reshaping that yields one complete indicator over 2007-2023. *)
Definition reshape_years (frames : list BatchFrame) : result DataFrame :=
  inr {| id_columns := ["Country Name"; "Country Code"; "Indicator Name"; "Indicator Code"]%string;
         num_columns := year_labels 2007 2023;
         rows := [ {| ids := ["Puerto Rico"; "PRI"; "GDP"; "NY.GDP"]%string;
                      nums := map (fun _ => Some 1%Q) (year_labels 2007 2023) |} ] |}.

(** A label is not among the labels of a literal list. *)
Ltac not_among :=
  let H := fresh "H" in
  simpl; intros H; repeat (destruct H as [H|H]; [discriminate H|]); exact H.

(** * Properties *)

(** ** Lists and masks *)

Lemma mask_filter {A} (p : A -> bool) (l : list A) :
  map fst (List.filter snd (combine l (map p l))) = List.filter p l.
Proof.
  induction l as [|x l IH]; simpl; [reflexivity|].
  destruct (p x); simpl; now rewrite IH.
Qed.

Lemma combine_map_r {A B C} (f : A -> B) (g : A * B -> C) (l : list A) :
  map g (combine l (map f l)) = map (fun x => g (x, f x)) l.
Proof. induction l as [|x l IH]; simpl; [reflexivity|now rewrite IH]. Qed.

Lemma remove_nth_last {A} (l : list A) (x : A) :
  remove_nth (length l) (l ++ [x]) = l.
Proof.
  unfold remove_nth.
  rewrite firstn_app, firstn_all, Nat.sub_diag. simpl.
  rewrite skipn_all2; [now rewrite !app_nil_r | rewrite length_app; simpl; lia].
Qed.

Lemma index_of_app_fresh (x : string) (cols : list string) :
  index_of x cols = None -> index_of x (cols ++ [x]) = Some (length cols).
Proof.
  induction cols as [|c cols IH]; simpl.
  - now rewrite String.eqb_refl.
  - destruct (String.eqb c x); [discriminate|].
    destruct (index_of x cols); [discriminate|].
    intros _. now rewrite IH.
Qed.

Lemma index_of_Some (x : string) (cols : list string) (i : nat) :
  index_of x cols = Some i -> nth_error cols i = Some x.
Proof.
  revert i. induction cols as [|c cols IH]; simpl; [discriminate|]. intros i.
  destruct (String.eqb c x) eqn:E.
  - intros [= <-]. apply String.eqb_eq in E. now subst.
  - destruct (index_of x cols); [|discriminate]. intros [= <-]. now apply IH.
Qed.

Lemma index_of_None (x : string) (cols : list string) :
  index_of x cols = None <-> ~ In x cols.
Proof.
  induction cols as [|c cols IH]; simpl; [tauto|].
  destruct (String.eqb c x) eqn:E.
  - apply String.eqb_eq in E. split; [discriminate|tauto].
  - apply String.eqb_neq in E. destruct (index_of x cols).
    + split; [discriminate|]. intros H. exfalso.
      assert (K : ~ In x cols) by tauto. apply IH in K. discriminate.
    + split; [|reflexivity]. intros _ [K|K]; [tauto|]. now apply IH.
Qed.

Lemma rectangular_In (t : DataFrame) (r : Row) :
  rectangular t -> In r (rows t) -> length (nums r) = length (num_columns t).
Proof.
  unfold rectangular. rewrite List.Forall_forall. intros H Hr. now apply H.
Qed.

(** ** The store primitives *)

Section StoreFacts.
Context {T : Type}.
Implicit Types (s : list T) (x y : T).

Lemma copy_run s a x :
  s !! a = Some x -> copy (PyFrame a) s = (s ++ [x], inr (length s)).
Proof. intros H. unfold copy, bind, read, alloc. now rewrite H. Qed.

Lemma copy_none s : copy (T:=T) PyNone s = (s, inl AttributeError).
Proof. reflexivity. Qed.

Lemma copy_dangling s a :
  s !! a = None -> copy (PyFrame a) s = (s, inl ReferenceError).
Proof. intros H. unfold copy, bind, read. now rewrite H. Qed.

Lemma method_run s a x (f : T -> result T) :
  s !! a = Some x ->
  method f a s = match f x with
                 | inl e => (s, inl e)
                 | inr y => (s ++ [y], inr (length s))
                 end.
Proof.
  intros H. unfold method, bind, read, lift, alloc. rewrite H.
  now destruct (f x).
Qed.

Lemma query_run {B} s a x (f : T -> result B) :
  s !! a = Some x -> query f a s = (s, f x).
Proof.
  intros H. unfold query, bind, read, lift. now rewrite H.
Qed.

Lemma assign_run s a x (f : T -> T) :
  s !! a = Some x -> assign f a s = (<[a:=f x]> s, inr tt).
Proof. intros H. unfold assign, bind, read, write. now rewrite H. Qed.

Lemma lookup_fresh s x l : (s ++ x :: l) !! length s = Some x.
Proof. now apply list_lookup_middle. Qed.

Lemma lookup_old s l a : (a < length s)%nat -> (s ++ l) !! a = s !! a.
Proof. apply lookup_app_l. Qed.

Lemma insert_fresh s x y l : <[length s:=y]> (s ++ x :: l) = s ++ y :: l.
Proof.
  rewrite insert_app_r_alt by lia. now rewrite Nat.sub_diag.
Qed.
End StoreFacts.

(** ** The blocks of [transform_development_data] *)

Lemma str_not_NaN_count (z : Z) : str z <> "NaN_count"%string.
Proof.
  unfold str. destruct z as [|p|p]; simpl.
  - discriminate.
  - destruct (Pos.to_uint p); discriminate.
  - destruct (Pos.to_uint p); discriminate.
Qed.

Lemma year_labels_no_NaN_count (lo hi : Z) :
  index_of "NaN_count" (year_labels lo hi) = None.
Proof.
  apply index_of_None. unfold year_labels. intros H.
  apply in_map_iff in H. destruct H as [z [H _]].
  now apply str_not_NaN_count in H.
Qed.

Lemma positions_length (labels cols : list string) (ps : list nat) :
  positions labels cols = inr ps -> length ps = length labels.
Proof.
  revert ps. induction labels as [|x t IH]; simpl; intros ps.
  - now intros [= <-].
  - destruct (index_of x cols); [|discriminate].
    destruct (positions t cols); [discriminate|].
    intros [= <-]. simpl. f_equal. now apply IH.
Qed.

Lemma df_loc_header (il nl : list string) (df t : DataFrame) :
  df_loc il nl df = inr t ->
  id_columns t = il /\ num_columns t = nl /\ rectangular t
  /\ length (rows t) = length (rows df).
Proof.
  unfold df_loc.
  destruct (positions il (id_columns df)) as [e|ps]; [discriminate|].
  destruct (positions nl (num_columns df)) as [e|qs] eqn:Q; [discriminate|].
  intros [= <-]. simpl. repeat split.
  - unfold rectangular. simpl. apply List.Forall_forall. intros r H.
    apply in_map_iff in H. destruct H as [r0 [<- _]]. simpl.
    rewrite length_map. now apply positions_length in Q.
  - now rewrite length_map.
Qed.

Lemma select_columns_run (s : list DataFrame) (a : nat) (df : DataFrame) (lo hi : Z) :
  s !! a = Some df ->
  select_columns (PyFrame a) lo hi s =
    match df_loc identity_labels (year_labels lo hi) df with
    | inl e => (s ++ [df], inl e)
    | inr t => (s ++ [df; t], inr (S (length s)))
    end.
Proof.
  intros H. unfold select_columns, bind. rewrite (copy_run _ _ _ H).
  rewrite (method_run _ _ df) by apply lookup_fresh.
  fold identity_labels. fold (year_labels lo hi).
  destruct (df_loc identity_labels (year_labels lo hi) df) as [e|t]; [reflexivity|].
  rewrite <- app_assoc. simpl. rewrite length_app. simpl.
  now rewrite Nat.add_1_r.
Qed.

Lemma Qle_bool_inject_Z (a b : Z) : Qle_bool (inject_Z a) (inject_Z b) = (a <=? b).
Proof. unfold Qle_bool. simpl. now rewrite !Z.mul_1_r. Qed.

Lemma with_nums_same (r : Row) : with_nums r (nums r) = r.
Proof. now destruct r. Qed.

Lemma set_cell_end (vs : list value) (v : value) :
  set_cell (length vs) v vs = vs ++ [v].
Proof. unfold set_cell. now rewrite Nat.ltb_irrefl. Qed.

Lemma nth_end (vs : list value) (v : value) : nth (length vs) (vs ++ [v]) None = v.
Proof. rewrite app_nth2 by lia. now rewrite Nat.sub_diag. Qed.

Lemma filter_map_swap {A B} (p : B -> bool) (g : A -> B) (l : list A) :
  List.filter p (map g l) = map g (List.filter (fun x => p (g x)) l).
Proof.
  induction l as [|x l IH]; simpl; [reflexivity|].
  destruct (p (g x)); simpl; now rewrite IH.
Qed.

(** The create-and-delete of [NaN_count] amounts to filtering on the
    count. *)
Lemma density_frames (t : DataFrame) :
  rectangular t ->
  index_of "NaN_count" (num_columns t) = None ->
  let t1 := df_setitem "NaN_count"
              (map (fun c => Some (inject_Z c)) (map nan_count (iloc_2 t))) t in
  exists column,
    df_getitem "NaN_count" t1 = inr column /\
    df_drop "NaN_count"
      (df_mask (map (fun v => le_cell v (inject_Z (shape_1 t / 2))) column) t1)
    = inr (with_rows t (List.filter (dense (shape_1 t)) (rows t))).
Proof.
  intros Hrect Hfresh t1.
  set (n := length (num_columns t)).
  set (g := fun r : Row =>
              with_nums r (nums r ++ [Some (inject_Z (nan_count (nums r)))])).
  assert (Hcols : num_columns t1 = num_columns t ++ ["NaN_count"%string]).
  { unfold t1, df_setitem. simpl. now rewrite Hfresh. }
  assert (Hrows : rows t1 = map g (rows t)).
  { unfold t1, df_setitem, iloc_2. simpl. rewrite Hfresh.
    rewrite !map_map.
    rewrite (combine_map_r
               (fun r => Some (inject_Z (nan_count (nums r))))
               (fun rv => {| ids := ids (fst rv);
                             nums := set_cell (length (num_columns t)) (snd rv) (nums (fst rv)) |})).
    apply map_ext_in. intros r Hr. simpl.
    rewrite <- (rectangular_In _ _ Hrect Hr). now rewrite set_cell_end. }
  assert (Hidx : index_of "NaN_count" (num_columns t1) = Some n).
  { rewrite Hcols. now apply index_of_app_fresh. }
  assert (Hids : id_columns t1 = id_columns t) by reflexivity.
  clearbody t1.
  exists (map (fun r => nth n (nums r) None) (rows t1)). split.
  { unfold df_getitem. now rewrite Hidx. }
  unfold df_drop, df_mask. simpl. rewrite Hidx, Hids.
  f_equal. unfold with_rows. f_equal.
  - rewrite Hcols. apply remove_nth_last.
  - rewrite (map_map (fun r : Row => nth n (nums r) None)
                     (fun v => le_cell v (inject_Z (shape_1 t / 2)))).
    rewrite (mask_filter (fun r => le_cell (nth n (nums r) None) (inject_Z (shape_1 t / 2)))).
    rewrite Hrows, filter_map_swap, map_map.
    pose proof (fun r => rectangular_In t r Hrect) as Hlen.
    assert (Hf : List.filter
                   (fun x => le_cell (nth n (nums (g x)) None) (inject_Z (shape_1 t / 2)))
                   (rows t)
                 = List.filter (dense (shape_1 t)) (rows t)).
    { apply filter_ext_in. intros r Hr. unfold g, dense. simpl.
      unfold n. rewrite <- (Hlen r Hr), nth_end. simpl.
      apply Qle_bool_inject_Z. }
    rewrite Hf.
    rewrite <- (map_id (List.filter (dense (shape_1 t)) (rows t))) at 2.
    apply map_ext_in. intros r Hr. apply filter_In in Hr. destruct Hr as [Hr _].
    unfold g. simpl. unfold n. rewrite <- (Hlen r Hr), remove_nth_last.
    now destruct r.
Qed.

Lemma density_filter_run (s : list DataFrame) (a : nat) (t : DataFrame) :
  s !! a = Some t ->
  rectangular t ->
  index_of "NaN_count" (num_columns t) = None ->
  exists t1 t2,
    density_filter a s =
      (<[a:=t1]> s ++ [t2; with_rows t (List.filter (dense (shape_1 t)) (rows t))],
       inr (S (length s))).
Proof.
  intros H Hrect Hfresh.
  destruct (density_frames t Hrect Hfresh) as [column [Hget Hdrop]].
  set (t1 := df_setitem "NaN_count"
               (map (fun c => Some (inject_Z c)) (map nan_count (iloc_2 t))) t) in *.
  set (t2 := df_mask (map (fun v => le_cell v (inject_Z (shape_1 t / 2))) column) t1) in *.
  exists t1, t2.
  assert (Ha : (a < length s)%nat) by (eapply lookup_lt_Some; eassumption).
  assert (H1 : <[a:=t1]> s !! a = Some t1) by now apply list_lookup_insert_eq.
  unfold density_filter, bind.
  rewrite (query_run _ _ _ _ H). cbv zeta.
  rewrite (query_run _ _ _ _ H).
  rewrite (assign_run _ _ _ _ H). fold t1.
  rewrite (query_run _ _ _ _ H1), Hget.
  rewrite (method_run _ _ _ _ H1). fold t2.
  rewrite (method_run _ _ t2) by apply lookup_fresh.
  rewrite Hdrop, <- app_assoc, length_app, length_insert. simpl.
  now rewrite Nat.add_1_r.
Qed.

Lemma all_zero_filter_run (s : list DataFrame) (a : nat) (t : DataFrame) :
  s !! a = Some t ->
  all_zero_filter a s =
    (s ++ [with_rows t (List.filter (fun r => negb (zero_row r)) (rows t))],
     inr (length s)).
Proof.
  intros H. unfold all_zero_filter, bind.
  rewrite (query_run _ _ _ _ H), (method_run _ _ _ _ H).
  unfold df_mask, with_rows, iloc_2. rewrite map_map.
  now rewrite (mask_filter (fun r => negb (all_zero (nums r)))).
Qed.

Lemma gap_resolution_run (s : list DataFrame) (a : nat) (t : DataFrame) :
  s !! a = Some t ->
  gap_resolution a s =
    (if existsb any_isna (iloc_2 t)
     then <[a:=with_rows t (map resolved (rows t))]> s
     else s,
     inr tt).
Proof.
  intros H. unfold gap_resolution, bind.
  rewrite (query_run _ _ _ _ H).
  destruct (existsb any_isna (iloc_2 t)); [|reflexivity].
  rewrite (assign_run _ _ _ _ H).
  unfold df_iloc_2_assign, with_rows, iloc_2. rewrite map_map.
  now rewrite (combine_map_r (fun r => resolve_gaps (nums r))
                 (fun rv => {| ids := ids (fst rv); nums := snd rv |})).
Qed.

(** ** The whole call *)

Lemma lookup_app_plus {T} (s l : list T) (k : nat) :
  (s ++ l) !! (length s + k)%nat = l !! k.
Proof.
  rewrite lookup_app_r by lia. f_equal. lia.
Qed.

Lemma insert_app_plus {T} (s l : list T) (k : nat) (x : T) :
  <[(length s + k)%nat:=x]> (s ++ l) = s ++ <[k:=x]> l.
Proof.
  rewrite insert_app_r_alt by lia. do 2 f_equal. lia.
Qed.

Lemma transform_development_data_fails
    (s : list DataFrame) (a : nat) (df : DataFrame) (lo hi : Z) (e : exn) :
  s !! a = Some df ->
  df_loc identity_labels (year_labels lo hi) df = inl e ->
  transform_development_data (PyFrame a) lo hi s = (s ++ [df], inl e).
Proof.
  intros H Hloc. unfold transform_development_data, bind.
  now rewrite (select_columns_run _ _ _ _ _ H), Hloc.
Qed.

Lemma transform_development_data_run
    (s : list DataFrame) (a : nat) (df t : DataFrame) (lo hi : Z) :
  s !! a = Some df ->
  df_loc identity_labels (year_labels lo hi) df = inr t ->
  exists t1 t2 t3,
    transform_development_data (PyFrame a) lo hi s
    = (s ++ [df; t1; t2; t3; transformed t], inr (length s + 4)%nat).
Proof.
  intros H Hloc.
  destruct (df_loc_header _ _ _ _ Hloc) as (Hid & Hnum & Hrect & _).
  assert (Hfresh : index_of "NaN_count" (num_columns t) = None).
  { rewrite Hnum. apply year_labels_no_NaN_count. }
  unfold transform_development_data, bind.
  rewrite (select_columns_run _ _ _ _ _ H), Hloc.
  assert (L1 : (s ++ [df; t]) !! S (length s) = Some t).
  { replace (S (length s)) with (length s + 1)%nat by lia.
    now rewrite lookup_app_plus. }
  destruct (density_filter_run _ _ _ L1 Hrect Hfresh) as (t1 & t2 & ->).
  set (t3 := with_rows t (List.filter (dense (shape_1 t)) (rows t))).
  exists t1, t2, t3.
  replace (S (length s)) with (length s + 1)%nat by lia.
  rewrite insert_app_plus, length_app. simpl.
  rewrite <- app_assoc. simpl.
  assert (L3 : (s ++ [df; t1; t2; t3]) !! (length s + 2 + 1)%nat = Some t3).
  { replace (length s + 2 + 1)%nat with (length s + 3)%nat by lia.
    now rewrite lookup_app_plus. }
  replace (S (length s + 2)) with (length s + 2 + 1)%nat by lia.
  rewrite (all_zero_filter_run _ _ _ L3).
  rewrite <- app_assoc, length_app. simpl.
  set (t4 := with_rows t3 _).
  assert (L4 : (s ++ [df; t1; t2; t3; t4]) !! (length s + 4)%nat = Some t4)
    by now rewrite lookup_app_plus.
  rewrite (gap_resolution_run _ _ _ L4).
  unfold transformed, kept_rows. fold t3. unfold ret.
  change (iloc_2 t4) with (map nums (rows t4)).
  change (rows t4) with
    (List.filter (fun r => negb (zero_row r)) (List.filter (dense (shape_1 t)) (rows t))).
  destruct (existsb any_isna _).
  - rewrite insert_app_plus. reflexivity.
  - reflexivity.
Qed.

(** ** Gap resolution on one row *)

Lemma interpolate_from_length (vs : list value) (p : Q) (g : nat) :
  length (interpolate_from p g vs) = length vs.
Proof.
  revert p g. induction vs as [|[x|] t IH]; intros p g; simpl;
    [reflexivity| |]; now rewrite IH.
Qed.

Lemma interpolate_length (vs : list value) : length (interpolate vs) = length vs.
Proof.
  induction vs as [|[x|] t IH]; simpl; [reflexivity| |].
  - now rewrite interpolate_from_length.
  - now rewrite IH.
Qed.

Lemma bfill_length (vs : list value) : length (bfill vs) = length vs.
Proof. induction vs as [|[x|] t IH]; simpl; [reflexivity| |]; now rewrite IH. Qed.

Lemma ffill_from_length (vs : list value) (p : value) :
  length (ffill_from p vs) = length vs.
Proof.
  revert p. induction vs as [|[x|] t IH]; intros p; simpl;
    [reflexivity| |]; now rewrite IH.
Qed.

Lemma resolve_gaps_length (vs : list value) : length (resolve_gaps vs) = length vs.
Proof.
  unfold resolve_gaps, ffill.
  now rewrite ffill_from_length, bfill_length, interpolate_length.
Qed.

Lemma interpolate_from_valid (vs : list value) (p : Q) (g : nat) :
  forallb notna (interpolate_from p g vs) = true.
Proof.
  revert p g. induction vs as [|[x|] t IH]; intros p g; simpl; [reflexivity| |].
  - apply IH.
  - rewrite IH. now destruct (next_valid t) as [[d y]|].
Qed.

Lemma bfill_valid (vs : list value) : forallb notna vs = true -> bfill vs = vs.
Proof.
  induction vs as [|[x|] t IH]; simpl; [reflexivity| |discriminate].
  intros H. now rewrite IH.
Qed.

Lemma ffill_from_valid (vs : list value) (p : value) :
  forallb notna vs = true -> ffill_from p vs = vs.
Proof.
  revert p. induction vs as [|[x|] t IH]; intros p; simpl; [reflexivity| |discriminate].
  intros H. now rewrite IH.
Qed.

(** From the first number on, interpolation alone settles the row. *)
Lemma resolve_gaps_from_number (x : Q) (t : list value) :
  resolve_gaps (Some x :: t) = Some x :: interpolate_from x O t.
Proof.
  unfold resolve_gaps, ffill. simpl.
  rewrite (bfill_valid _ (interpolate_from_valid t x O)).
  now rewrite (ffill_from_valid _ _ (interpolate_from_valid t x O)).
Qed.

Lemma interpolate_keeps_number (vs : list value) :
  existsb notna vs = true -> existsb notna (interpolate vs) = true.
Proof.
  induction vs as [|[x|] t IH]; simpl; [discriminate|reflexivity|exact IH].
Qed.

Lemma bfill_head (vs : list value) :
  existsb notna vs = true -> exists x, hd None (bfill vs) = Some x.
Proof.
  induction vs as [|[x|] t IH]; simpl; [discriminate| |].
  - intros _. now exists x.
  - exact IH.
Qed.

Lemma ffill_from_number (vs : list value) (x : Q) :
  forallb notna (ffill_from (Some x) vs) = true.
Proof.
  revert x. induction vs as [|[y|] t IH]; intros x; simpl; [reflexivity| |]; apply IH.
Qed.

Lemma resolve_gaps_valid (vs : list value) :
  existsb notna vs = true -> forallb notna (resolve_gaps vs) = true.
Proof.
  intros H. apply interpolate_keeps_number in H.
  destruct (bfill_head _ H) as [x Hx].
  unfold resolve_gaps, ffill.
  destruct (bfill (interpolate vs)) as [|v t]; simpl in *; [discriminate|].
  subst v. simpl. apply ffill_from_number.
Qed.

Lemma nan_count_valid (vs : list value) :
  forallb notna vs = true <-> nan_count vs = 0.
Proof.
  unfold nan_count. induction vs as [|[x|] t IH]; simpl.
  - tauto.
  - exact IH.
  - split; [discriminate|]. intros H. exfalso. simpl in H. lia.
Qed.

Lemma nan_count_bounds (vs : list value) :
  0 <= nan_count vs <= Z.of_nat (length vs).
Proof.
  unfold nan_count. split; [lia|].
  apply inj_le. apply filter_length_le.
Qed.

Lemma nan_count_all (vs : list value) :
  existsb notna vs = false -> nan_count vs = Z.of_nat (length vs).
Proof.
  unfold nan_count. induction vs as [|[x|] t IH]; simpl; [reflexivity|discriminate|].
  intros H. apply IH in H. lia.
Qed.

(** A row that passes the density test over at least one column holds a
    number. *)
Lemma dense_has_number (n : Z) (r : Row) :
  Z.of_nat (length (nums r)) = n -> 0 < n ->
  dense n r = true -> existsb notna (nums r) = true.
Proof.
  intros Hlen Hpos Hd. unfold dense in Hd. apply Z.leb_le in Hd.
  destruct (existsb notna (nums r)) eqn:E; [reflexivity|].
  apply nan_count_all in E. exfalso.
  assert (n / 2 < n) by (apply Z.div_lt; lia). lia.
Qed.

Lemma any_isna_false (vs : list value) : any_isna vs = false -> nan_count vs = 0.
Proof.
  intros H. apply nan_count_valid. unfold any_isna in H.
  induction vs as [|[x|] t IH]; simpl in *; [reflexivity| |discriminate].
  now apply IH.
Qed.

Lemma existsb_false_In {A} (p : A -> bool) (l : list A) (x : A) :
  existsb p l = false -> In x l -> p x = false.
Proof.
  intros H Hx. destruct (p x) eqn:E; [|reflexivity].
  rewrite <- H. symmetry. apply existsb_exists. now exists x.
Qed.

Lemma kept_rows_In (t : DataFrame) (r : Row) :
  In r (kept_rows t) <->
  In r (rows t) /\ dense (shape_1 t) r = true /\ zero_row r = false.
Proof.
  unfold kept_rows. rewrite !filter_In, negb_true_iff. tauto.
Qed.

Lemma transformed_clean (t : DataFrame) (r : Row) :
  rectangular t -> In r (rows (transformed t)) ->
  length (nums r) = length (num_columns t) /\ nan_count (nums r) = 0.
Proof.
  intros Hrect0 Hr. pose proof (fun r => rectangular_In t r Hrect0) as Hrect.
  unfold transformed in Hr. simpl in Hr.
  destruct (existsb any_isna (map nums (kept_rows t))) eqn:E.
  - apply in_map_iff in Hr. destruct Hr as [r0 [<- Hr0]].
    apply kept_rows_In in Hr0. destruct Hr0 as (Hin & Hd & _).
    specialize (Hrect r0 Hin). simpl. rewrite resolve_gaps_length. split; [exact Hrect|].
    destruct (nums r0) as [|v vs] eqn:Hn; [reflexivity|].
    apply nan_count_valid, resolve_gaps_valid. rewrite <- Hn.
    apply (dense_has_number (shape_1 t)); [| |exact Hd].
    + unfold shape_1. now rewrite Hn, Hrect.
    + unfold shape_1. rewrite <- Hrect. simpl. lia.
  - split.
    + apply Hrect. now apply kept_rows_In in Hr.
    + apply any_isna_false.
      apply (existsb_false_In _ _ _ E). now apply in_map.
Qed.

Lemma transform_development_data_none (lo hi : Z) (s : list DataFrame) :
  transform_development_data PyNone lo hi s = (s, inl AttributeError).
Proof. reflexivity. Qed.

Lemma transform_development_data_dangling (a : nat) (lo hi : Z) (s : list DataFrame) :
  s !! a = None ->
  transform_development_data (PyFrame a) lo hi s = (s, inl ReferenceError).
Proof.
  intros H. unfold transform_development_data, select_columns, bind.
  now rewrite (copy_dangling _ _ H).
Qed.

(** A call that returns was given a frame whose columns could all be
    selected, and returns the address of [transformed]. *)
Lemma transform_development_data_returns
    (v : pyval) (lo hi : Z) (s s' : list DataFrame) (a' : nat) :
  transform_development_data v lo hi s = (s', inr a') ->
  exists a df t,
    v = PyFrame a /\ s !! a = Some df /\
    df_loc identity_labels (year_labels lo hi) df = inr t /\
    s' !! a' = Some (transformed t).
Proof.
  intros H. destruct v as [|a].
  - rewrite transform_development_data_none in H. discriminate.
  - destruct (s !! a) as [df|] eqn:Hs.
    + destruct (df_loc identity_labels (year_labels lo hi) df) as [e|t] eqn:Hloc.
      * rewrite (transform_development_data_fails _ _ _ _ _ _ Hs Hloc) in H.
        discriminate.
      * destruct (transform_development_data_run _ _ _ _ _ _ Hs Hloc)
          as (t1 & t2 & t3 & Hrun).
        rewrite Hrun in H. injection H as <- <-.
        exists a, df, t. repeat split; try assumption.
        now rewrite lookup_app_plus.
    + rewrite (transform_development_data_dangling _ _ _ _ Hs) in H. discriminate.
Qed.

(** ** Claims on [transform_development_data] *)

(** C1. Whatever the input table, the year range and the pattern of its
    gaps, every row of the table that [transform_development_data]
    returns has a number in each of its year columns: the count of NaN
    cells of the row is zero. *)
Theorem transform_development_data_no_missing
    (v : pyval) (lo hi : Z) (s s' : list DataFrame) (a' : nat) :
  transform_development_data v lo hi s = (s', inr a') ->
  exists out,
    s' !! a' = Some out /\
    num_columns out = year_labels lo hi /\
    forall r, In r (rows out) ->
              length (nums r) = length (year_labels lo hi) /\
              nan_count (nums r) = 0.
Proof.
  intros H.
  destruct (transform_development_data_returns _ _ _ _ _ _ H)
    as (a & df & t & _ & _ & Hloc & Hout).
  destruct (df_loc_header _ _ _ _ Hloc) as (_ & Hnum & Hrect & _).
  exists (transformed t). split; [exact Hout|]. split; [exact Hnum|].
  intros r Hr. rewrite <- Hnum. now apply transformed_clean.
Qed.

Lemma transform_development_data_no_missing_witness :
  let run := transform_development_data (PyFrame 0) 2018 2023 [wdi_sample] in
  run = (fst run, inr 5%nat) /\
  exists out,
    fst run !! 5%nat = Some out /\
    num_columns out = year_labels 2018 2023 /\
    forall r, In r (rows out) ->
              length (nums r) = length (year_labels 2018 2023) /\
              nan_count (nums r) = 0.
Proof.
  split; [vm_compute; reflexivity|].
  apply (transform_development_data_no_missing (PyFrame 0) 2018 2023 [wdi_sample]).
  vm_compute. reflexivity.
Defined.

Lemma range_In (lo hi y : Z) : In y (range lo hi) <-> lo <= y < hi.
Proof.
  unfold range. rewrite in_map_iff. split.
  - intros [i [<- Hi]]. apply in_seq in Hi. lia.
  - intros H. exists (Z.to_nat (y - lo)). split; [lia|]. apply in_seq. lia.
Qed.

Lemma range_empty (lo hi : Z) : hi <= lo -> range lo hi = [].
Proof.
  intros H. unfold range. replace (Z.to_nat (hi - lo)) with O by lia. reflexivity.
Qed.

Lemma year_labels_In (lo hi y : Z) :
  lo <= y <= hi -> In (str y) (year_labels lo hi).
Proof.
  intros H. unfold year_labels. apply in_map. apply range_In. lia.
Qed.

Lemma year_labels_empty (lo hi : Z) : hi < lo -> year_labels lo hi = [].
Proof.
  intros H. unfold year_labels. rewrite range_empty by lia. reflexivity.
Qed.

Lemma index_of_In (x : string) (cols : list string) :
  In x cols -> exists i, index_of x cols = Some i.
Proof.
  intros H. destruct (index_of x cols) as [i|] eqn:E; [now exists i|].
  apply index_of_None in E. contradiction.
Qed.

Lemma positions_present (labels cols : list string) :
  (forall x, In x labels -> In x cols) -> exists ps, positions labels cols = inr ps.
Proof.
  induction labels as [|x t IH]; simpl; intros H.
  - now exists [].
  - destruct (index_of_In x cols) as [i ->]; [apply H; now left|].
    destruct IH as [ps ->]; [intros y Hy; apply H; now right|].
    now exists (i :: ps).
Qed.

Lemma positions_missing (labels cols : list string) (x : string) :
  In x labels -> ~ In x cols ->
  exists l, positions labels cols = inl (KeyError l) /\ In l labels /\ ~ In l cols.
Proof.
  induction labels as [|y t IH]; simpl; intros Hx Hn; [contradiction|].
  destruct (index_of y cols) as [i|] eqn:E.
  - destruct Hx as [->|Hx].
    + apply index_of_Some, nth_error_In in E. contradiction.
    + destruct (IH Hx Hn) as (l & -> & Hl & Hl'). exists l. tauto.
  - exists y. apply index_of_None in E. tauto.
Qed.

Lemma positions_error (labels cols : list string) (e : exn) :
  positions labels cols = inl e ->
  exists l, e = KeyError l /\ In l labels /\ ~ In l cols.
Proof.
  induction labels as [|y t IH]; simpl; [discriminate|].
  destruct (index_of y cols) as [i|] eqn:E.
  - destruct (positions t cols) as [e'|ps]; [|discriminate].
    intros [= <-]. destruct (IH eq_refl) as (l & -> & Hl & Hl'). exists l. tauto.
  - intros [= <-]. exists y. apply index_of_None in E. tauto.
Qed.

(** The selection fails exactly on a missing label, with [KeyError]. *)
Lemma df_loc_error (il nl : list string) (df : DataFrame) (e : exn) :
  df_loc il nl df = inl e ->
  exists l, e = KeyError l /\
            ((In l il /\ ~ In l (id_columns df)) \/ (In l nl /\ ~ In l (num_columns df))).
Proof.
  unfold df_loc.
  destruct (positions il (id_columns df)) as [e1|ps] eqn:P.
  - intros [= <-]. destruct (positions_error _ _ _ P) as (l & -> & H). exists l. tauto.
  - destruct (positions nl (num_columns df)) as [e2|qs] eqn:Q; [|discriminate].
    intros [= <-]. destruct (positions_error _ _ _ Q) as (l & -> & H). exists l. tauto.
Qed.

Lemma df_loc_missing_year (il nl : list string) (df : DataFrame) (x : string) :
  In x nl -> ~ In x (num_columns df) ->
  exists l, df_loc il nl df = inl (KeyError l).
Proof.
  intros Hx Hn. unfold df_loc.
  destruct (positions il (id_columns df)) as [e1|ps] eqn:P.
  - destruct (positions_error _ _ _ P) as (l & -> & _). now exists l.
  - destruct (positions_missing _ _ _ Hx Hn) as (l & -> & _). now exists l.
Qed.

Lemma df_loc_present (il nl : list string) (df : DataFrame) :
  (forall x, In x il -> In x (id_columns df)) ->
  (forall x, In x nl -> In x (num_columns df)) ->
  exists t, df_loc il nl df = inr t.
Proof.
  intros Hi Hn. unfold df_loc.
  destruct (positions_present _ _ Hi) as [ps ->].
  destruct (positions_present _ _ Hn) as [qs ->]. eauto.
Qed.

Lemma filter_none {A} (p : A -> bool) (l : list A) :
  (forall x, In x l -> p x = false) -> List.filter p l = [].
Proof.
  induction l as [|x l IH]; simpl; intros H; [reflexivity|].
  rewrite (H x) by now left. apply IH. intros y Hy. apply H. now right.
Qed.

(** C2, as the code has it. There is no [InvalidRangeError]: the only
    exception of a call on a frame is the [KeyError] of a label that the
    input lacks. A year of the range that is not a column raises it (so
    does a range none of whose years is a column); a range with
    [df_min_year > df_max_year] asks for no year label and, the two
    identity columns being there, the call returns. *)
Theorem transform_development_data_key_error
    (s : list DataFrame) (a : nat) (df : DataFrame) (lo hi : Z) :
  s !! a = Some df ->
  ((exists y, lo <= y <= hi /\ ~ In (str y) (num_columns df)) ->
   exists l, transform_development_data (PyFrame a) lo hi s
             = (s ++ [df], inl (KeyError l)))
  /\
  (forall s' e,
      transform_development_data (PyFrame a) lo hi s = (s', inl e) ->
      exists l, e = KeyError l /\
                ((In l identity_labels /\ ~ In l (id_columns df)) \/
                 (In l (year_labels lo hi) /\ ~ In l (num_columns df))))
  /\
  (hi < lo ->
   (forall x, In x identity_labels -> In x (id_columns df)) ->
   exists s' a', transform_development_data (PyFrame a) lo hi s = (s', inr a')).
Proof.
  intros Hs. repeat split.
  - intros (y & Hy & Hn).
    destruct (df_loc_missing_year identity_labels _ df _ (year_labels_In _ _ _ Hy) Hn)
      as [l Hl].
    exists l. now apply transform_development_data_fails.
  - intros s' e H.
    destruct (df_loc identity_labels (year_labels lo hi) df) as [e0|t] eqn:Hloc.
    + rewrite (transform_development_data_fails _ _ _ _ _ _ Hs Hloc) in H.
      injection H as _ <-. now apply df_loc_error.
    + destruct (transform_development_data_run _ _ _ _ _ _ Hs Hloc)
        as (t1 & t2 & t3 & Hrun).
      rewrite Hrun in H. discriminate.
  - intros Hlt Hid.
    destruct (df_loc_present identity_labels (year_labels lo hi) df Hid) as [t Hloc].
    { rewrite year_labels_empty by exact Hlt. intros x []. }
    destruct (transform_development_data_run _ _ _ _ _ _ Hs Hloc)
      as (t1 & t2 & t3 & Hrun).
    eauto.
Qed.

Lemma transform_development_data_key_error_witness :
  [wdi_sample] !! 0%nat = Some wdi_sample /\
  exists l, transform_development_data (PyFrame 0) 2018 2025 [wdi_sample]
            = ([wdi_sample] ++ [wdi_sample], inl (KeyError l)).
Proof.
  split; [reflexivity|].
  apply (proj1 (transform_development_data_key_error
                  [wdi_sample] 0 wdi_sample 2018 2025 eq_refl)).
  exists 2025. split; [lia|]. not_among.
Defined.

(** C2 as stated does not hold: with [df_min_year = 2023] and
    [df_max_year = 2018] the call on the sample table returns. *)
Lemma transform_development_data_reversed_range_no_error :
  ~ (forall (s : list DataFrame) (a : nat) (df : DataFrame) (lo hi : Z),
        s !! a = Some df -> hi < lo ->
        exists s' e, transform_development_data (PyFrame a) lo hi s = (s', inl e)).
Proof.
  intros H.
  destruct (H [wdi_sample] 0%nat wdi_sample 2023 2018 eq_refl eq_refl)
    as (s' & e & He).
  vm_compute in He. discriminate He.
Qed.

(** C10. With [df_min_year > df_max_year] the call does not raise: no
    year column is selected, every row has no NaN and passes the density
    test, every row is (vacuously) zero throughout and is dropped, and
    the table returned has the two identity columns and no row. *)
Theorem transform_development_data_reversed_range
    (s : list DataFrame) (a : nat) (df : DataFrame) (lo hi : Z) :
  s !! a = Some df ->
  In "Country Code"%string (id_columns df) ->
  In "Indicator Name"%string (id_columns df) ->
  hi < lo ->
  exists t,
    df_loc identity_labels (year_labels lo hi) df = inr t /\
    num_columns t = [] /\
    length (rows t) = length (rows df) /\
    (forall r, In r (rows t) ->
               nan_count (nums r) = 0 /\
               dense (shape_1 t) r = true /\
               zero_row r = true) /\
    exists s',
      transform_development_data (PyFrame a) lo hi s = (s', inr (length s + 4)%nat) /\
      s' !! (length s + 4)%nat
      = Some {| id_columns := ["Country Code"; "Indicator Name"]%string;
                num_columns := [];
                rows := [] |}.
Proof.
  intros Hs Hcc Hin Hlt.
  destruct (df_loc_present identity_labels (year_labels lo hi) df) as [t Hloc].
  { intros x [<-|[<-|[]]]; assumption. }
  { rewrite year_labels_empty by exact Hlt. intros x []. }
  destruct (df_loc_header _ _ _ _ Hloc) as (Hid & Hnum & Hrect & Hlen).
  rewrite year_labels_empty in Hnum by exact Hlt.
  assert (Hrows : forall r, In r (rows t) -> nums r = []).
  { intros r Hr. pose proof (rectangular_In _ _ Hrect Hr) as Hr0.
    rewrite Hnum in Hr0. now destruct (nums r). }
  exists t. repeat split; try assumption.
  - now rewrite (Hrows r H).
  - unfold dense, shape_1. now rewrite (Hrows r H), Hnum.
  - unfold zero_row. now rewrite (Hrows r H).
  - destruct (transform_development_data_run _ _ _ _ _ _ Hs Hloc)
      as (t1 & t2 & t3 & Hrun).
    eexists. split; [exact Hrun|].
    rewrite lookup_app_plus. simpl. f_equal.
    assert (K : kept_rows t = []).
    { unfold kept_rows. apply filter_none. intros r Hr.
      apply filter_In in Hr. destruct Hr as [Hr _].
      unfold zero_row. now rewrite (Hrows r Hr). }
    unfold transformed. rewrite K. simpl. unfold with_rows.
    now rewrite Hid, Hnum.
Qed.

Lemma transform_development_data_reversed_range_witness :
  exists t,
    df_loc identity_labels (year_labels 2023 2018) wdi_sample = inr t /\
    num_columns t = [] /\
    length (rows t) = length (rows wdi_sample) /\
    (forall r, In r (rows t) ->
               nan_count (nums r) = 0 /\
               dense (shape_1 t) r = true /\
               zero_row r = true) /\
    exists s',
      transform_development_data (PyFrame 0) 2023 2018 [wdi_sample]
      = (s', inr (length [wdi_sample] + 4)%nat) /\
      s' !! (length [wdi_sample] + 4)%nat
      = Some {| id_columns := ["Country Code"; "Indicator Name"]%string;
                num_columns := [];
                rows := [] |}.
Proof.
  apply (transform_development_data_reversed_range [wdi_sample] 0 wdi_sample 2023 2018).
  - reflexivity.
  - simpl. right. left. reflexivity.
  - simpl. right. right. left. reflexivity.
  - lia.
Defined.

(** The density block on any frame whose rows fit its header and which
    has no column [NaN_count] yet. *)
Lemma density_filter_block (s : list DataFrame) (a : nat) (t : DataFrame) :
  s !! a = Some t ->
  rectangular t ->
  ~ In "NaN_count"%string (num_columns t) ->
  let N := Z.of_nat (length (num_columns t)) in
  exists s' a' out,
    density_filter a s = (s', inr a') /\
    s' !! a' = Some out /\
    id_columns out = id_columns t /\
    num_columns out = num_columns t /\
    rows out = List.filter (fun r => nan_count (nums r) <=? N / 2) (rows t) /\
    forall r, In r (rows t) ->
      (nan_count (nums r) <= N / 2 -> In r (rows out)) /\
      (N / 2 + 1 <= nan_count (nums r) -> ~ In r (rows out)).
Proof.
  intros Hs Hrect Hfresh N. apply index_of_None in Hfresh.
  destruct (density_filter_run _ _ _ Hs Hrect Hfresh) as (t1 & t2 & Hrun).
  eexists _, _, _. split; [exact Hrun|]. split.
  { replace (S (length s)) with (length (<[a:=t1]> s) + 1)%nat
      by (rewrite length_insert; lia).
    rewrite lookup_app_plus. reflexivity. }
  repeat split.
  - intros Hle. apply filter_In. split; [assumption|].
    unfold dense, shape_1. now apply Z.leb_le.
  - intros Hgt Hin. apply filter_In in Hin. destruct Hin as [_ Hd].
    unfold dense, shape_1 in Hd. apply Z.leb_le in Hd. fold N in Hd. lia.
Qed.

(** C3. In [transform_development_data] the density filter runs on the
    frame [t] that the column selection leaves, with [N] year columns.
    It keeps, in their order, exactly the rows of [t] whose count of NaN
    year cells is at most [N // 2]: a row with [N // 2] missing values
    stays, a row with [N // 2 + 1] or more goes. *)
Theorem density_filter_threshold
    (s : list DataFrame) (a : nat) (df t : DataFrame) (lo hi : Z) :
  s !! a = Some df ->
  df_loc identity_labels (year_labels lo hi) df = inr t ->
  let N := Z.of_nat (length (year_labels lo hi)) in
  exists s1 u s2 u' out,
    select_columns (PyFrame a) lo hi s = (s1, inr u) /\
    s1 !! u = Some t /\
    density_filter u s1 = (s2, inr u') /\
    s2 !! u' = Some out /\
    id_columns out = identity_labels /\
    num_columns out = year_labels lo hi /\
    rows out = List.filter (fun r => nan_count (nums r) <=? N / 2) (rows t) /\
    forall r, In r (rows t) ->
      length (nums r) = length (year_labels lo hi) /\
      (nan_count (nums r) <= N / 2 -> In r (rows out)) /\
      (N / 2 + 1 <= nan_count (nums r) -> ~ In r (rows out)).
Proof.
  intros Hs Hloc N.
  destruct (df_loc_header _ _ _ _ Hloc) as (Hid & Hnum & Hrect & _).
  assert (Hfresh : ~ In "NaN_count"%string (num_columns t)).
  { apply index_of_None. rewrite Hnum. apply year_labels_no_NaN_count. }
  assert (L1 : (s ++ [df; t]) !! S (length s) = Some t).
  { replace (S (length s)) with (length s + 1)%nat by lia.
    now rewrite lookup_app_plus. }
  destruct (density_filter_block _ _ _ L1 Hrect Hfresh)
    as (s2 & u' & out & Hrun & Hout & Ho1 & Ho2 & Ho3 & Ho4).
  exists (s ++ [df; t]), (S (length s)), s2, u', out.
  split; [now rewrite (select_columns_run _ _ _ _ _ Hs), Hloc|].
  split; [exact L1|]. split; [exact Hrun|]. split; [exact Hout|].
  split; [now rewrite Ho1|]. split; [now rewrite Ho2|].
  rewrite Hnum in Ho3, Ho4. split; [exact Ho3|].
  intros r Hr. split; [|now apply Ho4].
  rewrite <- Hnum. now apply rectangular_In.
Qed.

Lemma density_filter_threshold_witness :
  [wdi_sample] !! 0%nat = Some wdi_sample /\
  df_loc identity_labels (year_labels 2018 2023) wdi_sample = inr selected_sample /\
  exists s1 u s2 u' out,
    select_columns (PyFrame 0) 2018 2023 [wdi_sample] = (s1, inr u) /\
    s1 !! u = Some selected_sample /\
    density_filter u s1 = (s2, inr u') /\
    s2 !! u' = Some out /\
    id_columns out = identity_labels /\
    num_columns out = year_labels 2018 2023 /\
    rows out = List.filter (fun r => nan_count (nums r) <=? 6 / 2) (rows selected_sample) /\
    forall r, In r (rows selected_sample) ->
      length (nums r) = length (year_labels 2018 2023) /\
      (nan_count (nums r) <= 6 / 2 -> In r (rows out)) /\
      (6 / 2 + 1 <= nan_count (nums r) -> ~ In r (rows out)).
Proof.
  split; [reflexivity|]. split; [reflexivity|].
  apply (density_filter_threshold [wdi_sample] 0 wdi_sample selected_sample 2018 2023);
    reflexivity.
Defined.

(** C7. The all-zero filter removes a row exactly when each of its year
    cells is a number equal to 0; a row with a NaN among its year cells
    stays, whatever its other cells. A zero is not a missing value: a
    row of zeros has NaN count 0. *)
Theorem all_zero_filter_drops (s : list DataFrame) (a : nat) (t : DataFrame) :
  s !! a = Some t ->
  exists out,
    all_zero_filter a s = (s ++ [out], inr (length s)) /\
    id_columns out = id_columns t /\
    num_columns out = num_columns t /\
    rows out = List.filter (fun r => negb (all_zero (nums r))) (rows t) /\
    (forall r, In r (rows t) ->
       (~ In r (rows out) <->
        forall v, In v (nums r) -> exists x, v = Some x /\ (x == 0)%Q) /\
       (In None (nums r) -> In r (rows out))) /\
    (forall vs, all_zero vs = true -> nan_count vs = 0).
Proof.
  intros Hs. eexists. split; [exact (all_zero_filter_run _ _ _ Hs)|].
  assert (Hz : forall vs, all_zero vs = true <->
                 forall v, In v vs -> exists x, v = Some x /\ (x == 0)%Q).
  { intros vs. unfold all_zero. rewrite forallb_forall. split.
    - intros H v Hv. specialize (H v Hv). destruct v as [x|]; [|discriminate].
      exists x. split; [reflexivity|]. now apply Qeq_bool_iff.
    - intros H v Hv. destruct (H v Hv) as (x & -> & Hx). now apply Qeq_bool_iff. }
  repeat split.
  - intros Hn. apply Hz. destruct (all_zero (nums r)) eqn:E; [reflexivity|].
    exfalso. apply Hn. apply filter_In. unfold zero_row. now rewrite E.
  - intros Hall Hin. apply filter_In in Hin. destruct Hin as [_ Hin].
    apply Hz in Hall. unfold zero_row in Hin. now rewrite Hall in Hin.
  - intros Hnan. apply filter_In. split; [assumption|]. unfold zero_row.
    destruct (all_zero (nums r)) eqn:E; [|reflexivity].
    destruct (proj1 (Hz _) E None Hnan) as (x & Hx & _). discriminate.
  - intros vs Hall. apply nan_count_valid. apply forallb_forall. intros v Hv.
    now destruct (proj1 (Hz _) Hall v Hv) as (x & -> & _).
Qed.

Lemma all_zero_filter_drops_witness :
  [selected_sample] !! 0%nat = Some selected_sample /\
  exists out,
    all_zero_filter 0 [selected_sample] = ([selected_sample] ++ [out], inr 1%nat) /\
    id_columns out = id_columns selected_sample /\
    num_columns out = num_columns selected_sample /\
    rows out = List.filter (fun r => negb (all_zero (nums r))) (rows selected_sample) /\
    (forall r, In r (rows selected_sample) ->
       (~ In r (rows out) <->
        forall v, In v (nums r) -> exists x, v = Some x /\ (x == 0)%Q) /\
       (In None (nums r) -> In r (rows out))) /\
    (forall vs, all_zero vs = true -> nan_count vs = 0).
Proof.
  split; [reflexivity|].
  apply (all_zero_filter_drops [selected_sample] 0 selected_sample).
  reflexivity.
Defined.

Example select_columns_sample :
  select_columns (PyFrame 0) 2018 2023 [wdi_sample]
  = ([wdi_sample; wdi_sample; selected_sample], inr 2%nat).
Proof. vm_compute. reflexivity. Qed.

(** ** The three kinds of gap *)

Lemma interpolate_leading (n : nat) (vs : list value) :
  interpolate (repeat None n ++ vs) = repeat None n ++ interpolate vs.
Proof. induction n as [|n IH]; simpl; [reflexivity|now rewrite IH]. Qed.

Lemma bfill_leading (n : nat) (x : Q) (vs : list value) :
  bfill (repeat None n ++ Some x :: vs) = repeat (Some x) n ++ Some x :: bfill vs.
Proof.
  induction n as [|n IH]; simpl; [reflexivity|].
  rewrite IH. now destruct n.
Qed.

Lemma next_valid_gap (n : nat) (b : Q) (vs : list value) :
  next_valid (repeat None n ++ Some b :: vs) = Some (n, b).
Proof. induction n as [|n IH]; simpl; [reflexivity|now rewrite IH]. Qed.

Lemma next_valid_trailing (n : nat) : next_valid (repeat None n) = None.
Proof. induction n as [|n IH]; simpl; [reflexivity|now rewrite IH]. Qed.

Lemma interpolate_from_gap (a b : Q) (g n : nat) (vs : list value) :
  interpolate_from a g (repeat None n ++ Some b :: vs)
  = map (fun k => Some (lerp a b (g + k) (g + S n))) (seq 1 n)
    ++ Some b :: interpolate_from b O vs.
Proof.
  revert g. induction n as [|n IH]; intros g; simpl; [reflexivity|].
  rewrite next_valid_gap, IH. f_equal.
  - do 2 f_equal; lia.
  - f_equal. rewrite <- (seq_shift n 1), map_map. apply map_ext. intros k.
    do 2 f_equal; lia.
Qed.

Lemma interpolate_from_trailing (a : Q) (g n : nat) :
  interpolate_from a g (repeat None n) = repeat (Some a) n.
Proof.
  revert g. induction n as [|n IH]; intros g; simpl; [reflexivity|].
  now rewrite next_valid_trailing, IH.
Qed.

Lemma forallb_repeat_number (x : Q) (n : nat) :
  forallb notna (repeat (Some x) n) = true.
Proof. induction n as [|n IH]; simpl; [reflexivity|exact IH]. Qed.

(** C6. Gap resolution is a function of the row. NaN cells in front of
    the first number take that number (backward fill); a run of [n] NaN
    cells between the numbers [a] and [b] takes the values of the
    straight line from [a] to [b]; NaN cells behind the last number take
    that number (forward fill). The row [NaN, NaN, 10, NaN, 20, NaN]
    becomes [10, 10, 10, 15, 20, 20], and this is what the block writes
    back into the frame. *)
Theorem gap_resolution_fills :
  (forall n x t,
      resolve_gaps (repeat None n ++ Some x :: t)
      = repeat (Some x) n ++ resolve_gaps (Some x :: t))
  /\
  (forall a n b t,
      resolve_gaps (Some a :: repeat None n ++ Some b :: t)
      = Some a :: map (fun k => Some (lerp a b k (S n))) (seq 1 n)
               ++ resolve_gaps (Some b :: t))
  /\
  (forall a n, resolve_gaps (Some a :: repeat None n) = Some a :: repeat (Some a) n)
  /\
  (forall a b k n,
      (lerp a b k n == (b - a) / inject_Z (Z.of_nat n) * inject_Z (Z.of_nat k) + a)%Q)
  /\
  resolve_gaps [None; None; Some 10%Q; None; Some 20%Q; None]
  = [Some 10%Q; Some 10%Q; Some 10%Q; Some 15%Q; Some 20%Q; Some 20%Q]
  /\
  gap_resolution 0 [gap_sample]
  = ([with_rows gap_sample
        [ {| ids := ["PRI"; "GDP"]%string;
             nums := [Some 10%Q; Some 10%Q; Some 10%Q; Some 15%Q; Some 20%Q; Some 20%Q] |} ]],
     inr tt)
  /\
  (forall (s : list DataFrame) a t,
      s !! a = Some t ->
      existsb any_isna (iloc_2 t) = true ->
      gap_resolution a s
      = (<[a:=with_rows t (map (fun r => with_nums r (resolve_gaps (nums r))) (rows t))]> s,
         inr tt)).
Proof.
  repeat split.
  - intros n x t. rewrite resolve_gaps_from_number.
    unfold resolve_gaps, ffill. rewrite interpolate_leading. simpl.
    rewrite bfill_leading.
    rewrite (bfill_valid _ (interpolate_from_valid t x O)).
    apply ffill_from_valid. rewrite forallb_app, forallb_repeat_number. simpl.
    apply interpolate_from_valid.
  - intros a n b t. rewrite !resolve_gaps_from_number.
    now rewrite interpolate_from_gap.
  - intros a n. rewrite resolve_gaps_from_number.
    now rewrite interpolate_from_trailing.
  - intros a b k n. unfold lerp. apply Qred_correct.
  - intros s a t Hs Hany. rewrite (gap_resolution_run _ _ _ Hs), Hany. reflexivity.
Qed.

Lemma gap_resolution_fills_witness :
  [gap_sample] !! 0%nat = Some gap_sample /\
  existsb any_isna (iloc_2 gap_sample) = true /\
  gap_resolution 0 [gap_sample]
  = (<[0%nat:=with_rows gap_sample
                (map (fun r => with_nums r (resolve_gaps (nums r))) (rows gap_sample))]>
       [gap_sample],
     inr tt).
Proof.
  split; [reflexivity|]. split; [reflexivity|].
  apply (proj2 (proj2 (proj2 (proj2 (proj2 (proj2 gap_resolution_fills)))))
           [gap_sample] 0%nat gap_sample); reflexivity.
Defined.

(** Inside the whole call the sample row does not reach gap resolution:
    four of its six year cells are missing, one more than [6 // 2], and
    the density filter has removed it. *)
Example gap_sample_is_sparse :
  exists s',
    transform_development_data (PyFrame 0) 2018 2023 [gap_sample] = (s', inr 5%nat) /\
    s' !! 5%nat = Some (with_rows gap_sample []).
Proof. eexists. split; vm_compute; reflexivity. Qed.

(** ** Claims on [transform_disaster_data] *)

Lemma filter_filter {A} (p q : A -> bool) (l : list A) :
  List.filter q (List.filter p l) = List.filter (fun x => p x && q x) l.
Proof.
  induction l as [|x l IH]; simpl; [reflexivity|].
  destruct (p x); simpl; [destruct (q x)|]; now rewrite IH.
Qed.

Lemma transform_disaster_data_run
    (d : list DisasterTable) (a : nat) (x : DisasterTable) (lo hi m : Z) :
  d !! a = Some x ->
  exists x1 x2,
    transform_disaster_data (PyFrame a) lo hi m d
    = (d ++ [x; x1; x2; List.filter (retained lo hi m) x], inr (length d + 3)%nat).
Proof.
  unfold DisasterTable in *.
  intros H. unfold transform_disaster_data, bind.
  rewrite (copy_run _ _ _ H).
  rewrite (method_run _ _ x) by apply lookup_fresh.
  rewrite (method_run _ _ (List.filter (in_years lo hi) x)).
  2:{ rewrite length_app. simpl. rewrite <- app_assoc. simpl.
      now rewrite lookup_app_plus. }
  rewrite (method_run _ _ (List.filter major_hurricane (List.filter (in_years lo hi) x))).
  2:{ rewrite !length_app. simpl. rewrite <- !app_assoc. simpl.
      replace (length d + 1 + 1)%nat with (length d + 2)%nat by lia.
      now rewrite lookup_app_plus. }
  unfold ret. rewrite !length_app. simpl. rewrite <- !app_assoc. simpl.
  rewrite !filter_filter. unfold retained.
  eexists _, _. do 2 f_equal. lia.
Qed.

Lemma ge_cell_spec (v : value) (k : Q) :
  ge_cell v k = true <-> exists x, v = Some x /\ (k <= x)%Q.
Proof.
  destruct v as [x|]; simpl.
  - rewrite Qle_bool_iff. split; [eauto|]. now intros (y & [= ->] & H).
  - split; [discriminate|]. now intros (y & [=] & _).
Qed.

Lemma retained_spec (lo hi m : Z) (e : Event) :
  retained lo hi m e = true <->
  lo <= Start_Year e <= hi /\
  Magnitude_Scale e = Some "Kph"%string /\
  (exists x, Magnitude e = Some x /\ (178 <= x)%Q) /\
  (exists n, Total_Affected e = Some n /\ (inject_Z m <= n)%Q).
Proof.
  unfold retained, in_years, major_hurricane, enough_affected.
  rewrite !andb_true_iff, !ge_cell_spec, !Z.leb_le.
  assert (K : match Magnitude_Scale e with
              | Some s0 => String.eqb s0 "Kph"
              | None => false
              end = true <-> Magnitude_Scale e = Some "Kph"%string).
  { destruct (Magnitude_Scale e) as [s0|].
    - rewrite String.eqb_eq. split; [now intros ->|now intros [= ->]].
    - split; discriminate. }
  rewrite K. tauto.
Qed.



Example transform_disaster_data_sample :
  exists d',
    transform_disaster_data (PyFrame 0) 2007 2023 500000 [emdat_sample] = (d', inr 4%nat) /\
    option_map (map Event_Name) (d' !! 4%nat) = Some ["Maria"%string].
Proof. eexists. split; vm_compute; reflexivity. Qed.

(** ** The caller's tables *)

Lemma transform_development_data_extends
    (v : pyval) (lo hi : Z) (s : list DataFrame) :
  exists l, fst (transform_development_data v lo hi s) = s ++ l /\
            forall a', snd (transform_development_data v lo hi s) = inr a' ->
                       (length s <= a')%nat.
Proof.
  destruct v as [|a].
  - exists []. rewrite transform_development_data_none, app_nil_r. simpl.
    split; [reflexivity|discriminate].
  - destruct (s !! a) as [df|] eqn:Hs.
    + destruct (df_loc identity_labels (year_labels lo hi) df) as [e|t] eqn:Hloc.
      * rewrite (transform_development_data_fails _ _ _ _ _ _ Hs Hloc). simpl.
        eexists. split; [reflexivity|discriminate].
      * destruct (transform_development_data_run _ _ _ _ _ _ Hs Hloc)
          as (t1 & t2 & t3 & ->). simpl.
        eexists. split; [reflexivity|]. intros a' [= <-]. lia.
    + rewrite (transform_development_data_dangling _ _ _ _ Hs). simpl.
      exists []. rewrite app_nil_r. split; [reflexivity|discriminate].
Qed.

Lemma transform_disaster_data_extends
    (v : pyval) (lo hi m : Z) (d : list DisasterTable) :
  exists l, fst (transform_disaster_data v lo hi m d) = d ++ l /\
            forall a', snd (transform_disaster_data v lo hi m d) = inr a' ->
                       (length d <= a')%nat.
Proof.
  destruct v as [|a].
  - exists []. rewrite app_nil_r. split; [reflexivity|discriminate].
  - destruct (d !! a) as [x|] eqn:Hd.
    + destruct (transform_disaster_data_run _ _ _ lo hi m Hd) as (x1 & x2 & ->). simpl.
      eexists. split; [reflexivity|]. intros a' [= <-]. lia.
    + exists []. rewrite app_nil_r.
      unfold transform_disaster_data, bind.
      unfold DisasterTable in *. rewrite (copy_dangling _ _ Hd). simpl.
      split; [reflexivity|discriminate].
Qed.

(** C9. Neither transformer changes an object that existed before the
    call, the caller's table among them, whether the call returns or
    raises: the store after the call holds every earlier object
    unchanged at its address. The first object a call on a table
    creates is a copy equal to that table, and the table returned is an
    object created by the call. *)
Theorem transformers_leave_input_unchanged :
  (forall (v : pyval) (lo hi : Z) (s : list DataFrame) (a : nat) (x : DataFrame),
      s !! a = Some x ->
      fst (transform_development_data v lo hi s) !! a = Some x)
  /\
  (forall (v : pyval) (lo hi m : Z) (d : list DisasterTable) (a : nat) (x : DisasterTable),
      d !! a = Some x ->
      fst (transform_disaster_data v lo hi m d) !! a = Some x)
  /\
  (forall (lo hi : Z) (s : list DataFrame) (a : nat) (x : DataFrame),
      s !! a = Some x ->
      fst (transform_development_data (PyFrame a) lo hi s) !! length s = Some x)
  /\
  (forall (lo hi m : Z) (d : list DisasterTable) (a : nat) (x : DisasterTable),
      d !! a = Some x ->
      fst (transform_disaster_data (PyFrame a) lo hi m d) !! length d = Some x)
  /\
  (forall (v : pyval) (lo hi : Z) (s : list DataFrame) (a' : nat),
      snd (transform_development_data v lo hi s) = inr a' -> (length s <= a')%nat)
  /\
  (forall (v : pyval) (lo hi m : Z) (d : list DisasterTable) (a' : nat),
      snd (transform_disaster_data v lo hi m d) = inr a' -> (length d <= a')%nat).
Proof.
  repeat split.
  - intros v lo hi s a x Hs.
    destruct (transform_development_data_extends v lo hi s) as (l & -> & _).
    rewrite lookup_app_l; [exact Hs|]. eapply lookup_lt_Some; eassumption.
  - intros v lo hi m d a x Hd.
    destruct (transform_disaster_data_extends v lo hi m d) as (l & -> & _).
    rewrite lookup_app_l; [exact Hd|]. eapply lookup_lt_Some; eassumption.
  - intros lo hi s a x Hs.
    destruct (df_loc identity_labels (year_labels lo hi) x) as [e|t] eqn:Hloc.
    + rewrite (transform_development_data_fails _ _ _ _ _ _ Hs Hloc). simpl.
      apply lookup_fresh.
    + destruct (transform_development_data_run _ _ _ _ _ _ Hs Hloc)
        as (t1 & t2 & t3 & ->). simpl. apply lookup_fresh.
  - intros lo hi m d a x Hd.
    destruct (transform_disaster_data_run _ _ _ lo hi m Hd) as (x1 & x2 & ->). simpl.
    apply lookup_fresh.
  - intros v lo hi s a' H.
    destruct (transform_development_data_extends v lo hi s) as (l & _ & K). now apply K.
  - intros v lo hi m d a' H.
    destruct (transform_disaster_data_extends v lo hi m d) as (l & _ & K). now apply K.
Qed.

Lemma transformers_leave_input_unchanged_witness :
  [wdi_sample] !! 0%nat = Some wdi_sample /\
  fst (transform_development_data (PyFrame 0) 2018 2023 [wdi_sample]) !! 0%nat
  = Some wdi_sample /\
  [emdat_sample] !! 0%nat = Some emdat_sample /\
  fst (transform_disaster_data (PyFrame 0) 2007 2023 500000 [emdat_sample]) !! 0%nat
  = Some emdat_sample.
Proof.
  split; [reflexivity|]. split.
  - apply (proj1 transformers_leave_input_unchanged
             (PyFrame 0) 2018 2023 [wdi_sample] 0%nat wdi_sample).
    reflexivity.
  - split; [reflexivity|].
    apply (proj1 (proj2 transformers_leave_input_unchanged)
             (PyFrame 0) 2007 2023 500000 [emdat_sample] 0%nat emdat_sample).
    reflexivity.
Defined.

(** ** Claims on [generate_report] *)

Section ReportFacts.
Variable backend : Page -> option (nat * string).
Variable bad : string -> option (nat * string).
Variable country_code : string.
Variable dev_data : DataFrame.
Variable dis_data : DisasterTable.
Variable name_at : nat.

Hypothesis backend_by_indicator : forall p, backend p = bad (page_indicator p).

Lemma plot_errors_progress (b : bool) (lg : list LogLine) (i n : nat) :
  plot_errors ((if b then [InfoProgress i n] else []) ++ lg) = plot_errors lg.
Proof. now destruct b. Qed.

Lemma skip_warnings_progress (b : bool) (lg : list LogLine) (i n : nat) :
  skip_warnings ((if b then [InfoProgress i n] else []) ++ lg) = skip_warnings lg.
Proof. now destruct b. Qed.

Lemma pages_loop_spec (rs : list Row) (i k : nat) :
  let out := pages_loop backend country_code dev_data dis_data name_at i k rs in
  map (fun p => (page_indicator p, series_y p)) (fst out)
  = map (fun r => (indicator_at name_at r,
                   row_values dev_data (year_cols dev_data) r))
        (List.filter (drawn dev_data bad name_at) rs)
  /\ map fst (plot_errors (snd out))
     = map (indicator_at name_at) (List.filter (undrawn dev_data bad name_at) rs)
  /\ skip_warnings (snd out)
     = map (indicator_at name_at) (List.filter (skipped dev_data) rs).
Proof.
  revert i k. induction rs as [|r rest IH]; intros i k; [now simpl|].
  cbn zeta. simpl pages_loop. unfold drawn, undrawn.
  fold (skipped dev_data r). fold (indicator_at name_at r).
  destruct (skipped dev_data r) eqn:Hsk.
  - specialize (IH (S i) k). cbn zeta in IH.
    destruct (pages_loop backend country_code dev_data dis_data name_at (S i) k rest)
      as [ps lg].
    simpl fst in *. simpl snd in *.
    rewrite plot_errors_progress, skip_warnings_progress.
    simpl. rewrite Hsk. simpl.
    destruct IH as (IH1 & IH2 & IH3). repeat split; [exact IH1|exact IH2|].
    now rewrite IH3.
  - destruct (draw_markers country_code (year_cols dev_data) (n_storms dis_data) k dis_data)
      as [k' ms].
    rewrite backend_by_indicator. simpl page_indicator.
    destruct (bad (indicator_at name_at r)) as [[taken msg]|] eqn:Hbad.
    + specialize (IH (S i) (k + taken)%nat). cbn zeta in IH.
      destruct (pages_loop backend country_code dev_data dis_data name_at (S i)
                           (k + taken) rest) as [ps lg].
      destruct IH as (IH1 & IH2 & IH3). simpl fst in *. simpl snd in *.
      rewrite plot_errors_progress, skip_warnings_progress.
      simpl. rewrite Hsk, Hbad. simpl. rewrite IH2.
      repeat split; [exact IH1|exact IH3].
    + specialize (IH (S i) k'). cbn zeta in IH.
      destruct (pages_loop backend country_code dev_data dis_data name_at (S i) k' rest)
        as [ps lg].
      destruct IH as (IH1 & IH2 & IH3). simpl fst in *. simpl snd in *.
      rewrite plot_errors_progress, skip_warnings_progress.
      simpl. rewrite Hsk, Hbad. simpl. rewrite IH1.
      repeat split; [exact IH2|exact IH3].
Qed.
End ReportFacts.

(** C5. Let the drawing of a page fail or not according to the
    indicator. Then [generate_report] ends normally, and the document
    holds one page for each indicator that is neither skipped (all year
    values missing) nor failing, in the order of the rows and with the
    row's values; each failing indicator leaves one error line and each
    skipped one a warning line, and the loop goes on to the next row. *)
Theorem generate_report_isolates_failures
    (backend : Page -> option (nat * string)) (bad : string -> option (nat * string))
    (country_code : string) (dev_data : DataFrame) (dis_data : DisasterTable)
    (name_at : nat) :
  (forall p, backend p = bad (page_indicator p)) ->
  year_cols dev_data <> [] ->
  index_of "Indicator Name" (id_columns dev_data) = Some name_at ->
  exists pages lg,
    generate_report backend country_code dev_data dis_data = (inr pages, lg) /\
    map (fun p => (page_indicator p, series_y p)) pages
    = map (fun r => (indicator_at name_at r,
                     row_values dev_data (year_cols dev_data) r))
          (List.filter (drawn dev_data bad name_at) (rows dev_data)) /\
    map fst (plot_errors lg)
    = map (indicator_at name_at)
          (List.filter (undrawn dev_data bad name_at) (rows dev_data)) /\
    skip_warnings lg
    = map (indicator_at name_at) (List.filter (skipped dev_data) (rows dev_data)).
Proof.
  intros Hbackend Hyears Hname. unfold generate_report.
  destruct (year_cols dev_data) as [|y ys] eqn:Hy; [contradiction|].
  rewrite Hname, <- Hy.
  pose proof (pages_loop_spec backend bad country_code dev_data dis_data name_at
                Hbackend (rows dev_data) 1 0) as H.
  cbn zeta in H.
  destruct (pages_loop backend country_code dev_data dis_data name_at 1 0 (rows dev_data))
    as [ps lg].
  simpl fst in H. simpl snd in H. destruct H as (H1 & H2 & H3).
  exists ps. eexists. split; [reflexivity|]. repeat split.
  - exact H1.
  - unfold plot_errors in *. simpl. rewrite flat_map_app. simpl.
    now rewrite app_nil_r.
  - unfold skip_warnings in *. simpl. rewrite flat_map_app. simpl.
    now rewrite app_nil_r.
Qed.

Lemma generate_report_isolates_failures_witness :
  exists pages lg,
    generate_report (fun p => fails_on_I3 (page_indicator p)) "PRI" report_sample emdat_sample
    = (inr pages, lg) /\
    map (fun p => (page_indicator p, series_y p)) pages
    = map (fun r => (indicator_at 1 r,
                     row_values report_sample (year_cols report_sample) r))
          (List.filter (drawn report_sample fails_on_I3 1) (rows report_sample)) /\
    map fst (plot_errors lg)
    = map (indicator_at 1)
          (List.filter (undrawn report_sample fails_on_I3 1) (rows report_sample)) /\
    skip_warnings lg
    = map (indicator_at 1) (List.filter (skipped report_sample) (rows report_sample)).
Proof.
  apply (generate_report_isolates_failures
           (fun p => fails_on_I3 (page_indicator p)) fails_on_I3
           "PRI" report_sample emdat_sample 1).
  - reflexivity.
  - vm_compute. discriminate.
  - reflexivity.
Defined.

(** Five indicators, the third cannot be drawn: pages for the first,
    second, fourth and fifth, in that order, and one error line. *)
Example generate_report_sample :
  let out := generate_report (fun p => fails_on_I3 (page_indicator p))
                             "PRI" report_sample emdat_sample in
  option_map (map page_indicator)
             (match fst out with inr ps => Some ps | inl _ => None end)
  = Some ["I1"; "I2"; "I4"; "I5"]%string
  /\ plot_errors (snd out) = [("I3", "cannot draw")]%string.
Proof. split; vm_compute; reflexivity. Qed.

(** ** Claims on [extract_development_data] *)

Section ExtractFacts.
Variable fetch : list string -> string + BatchFrame.
Variable reshape : list BatchFrame -> result DataFrame.

Lemma fetch_loop_spec (bs : list (list string)) (n : nat) :
  let '(dfs, failed, lg) := fetch_loop fetch n bs in
  dfs = usable_frames fetch bs
  /\ failed = List.filter (raises fetch) bs
  /\ failed_numbers lg
     = map fst (List.filter (fun kb => raises fetch (snd kb))
                            (combine (seq n (length bs)) bs)).
Proof.
  revert n. induction bs as [|b rest IH]; intros n; [now simpl|].
  simpl fetch_loop. specialize (IH (S n)).
  destruct (fetch_loop fetch (S n) rest) as [[dfs failed] lg].
  destruct IH as (IH1 & IH2 & IH3).
  unfold raises in *. simpl.
  destruct (fetch b) as [msg|df]; simpl.
  - now rewrite IH1, IH2, IH3.
  - rewrite IH1, IH2, IH3. now destruct (empty df).
Qed.

Lemma extract_development_data_spec (indicators : list string) :
  exists lg,
    extract_development_data fetch reshape indicators
    = (match usable_frames fetch (batches indicators) with
       | [] => inr None
       | _ :: _ =>
           match reshape (usable_frames fetch (batches indicators)) with
           | inr final_df => inr (Some final_df)
           | inl e => inl e
           end
       end, lg)
    /\ failed_numbers lg
       = map fst (List.filter (fun kb => raises fetch (snd kb))
                    (combine (seq 1 (length (batches indicators)))
                             (batches indicators))).
Proof.
  unfold extract_development_data.
  pose proof (fetch_loop_spec (batches indicators) 1) as H.
  destruct (fetch_loop fetch 1 (batches indicators)) as [[dfs failed] lg].
  destruct H as (-> & _ & H3).
  assert (K : forall l, failed_numbers (lg ++ [l]) = failed_numbers lg
                        \/ exists k m, l = FailedBatch k m).
  { intros l. unfold failed_numbers. rewrite flat_map_app. simpl.
    destruct l; rewrite ?app_nil_r; eauto. }
  destruct (usable_frames fetch (batches indicators)) as [|f fs].
  - eexists. split; [reflexivity|].
    destruct (K NoDataFetched) as [->|(k & m & [=])]. exact H3.
  - destruct (reshape (f :: fs)) as [e|final_df]; eexists; (split; [reflexivity|]).
    + destruct (K ErrorExecuting) as [->|(k & m & [=])]. exact H3.
    + destruct (K CreatingDataFrame) as [->|(k & m & [=])]. exact H3.
Qed.
End ExtractFacts.

(** C8, as the code has it. A batch whose request raises is reported
    and left out, and so is a batch that returns an empty frame. When
    at least one batch returned a frame that is not empty, the kept
    frames, in order, go on to be combined. When none did, the function
    prints its error line and returns [None]; it does not raise. The
    run still ends in failure: [transform_development_data] applied to
    [None] raises [AttributeError], which the driver reports. *)
Theorem extract_development_data_batches
    (fetch : list string -> string + BatchFrame)
    (reshape : list BatchFrame -> result DataFrame)
    (indicators : list string) :
  let frames := usable_frames fetch (batches indicators) in
  exists lg,
    (frames = [] ->
     extract_development_data fetch reshape indicators = (inr None, lg)) /\
    (frames <> [] ->
     extract_development_data fetch reshape indicators
     = (match reshape frames with
        | inr final_df => inr (Some final_df)
        | inl e => inl e
        end, lg)) /\
    failed_numbers lg
    = map fst (List.filter (fun kb => raises fetch (snd kb))
                 (combine (seq 1 (length (batches indicators))) (batches indicators))) /\
    (forall (lo hi : Z) (s : list DataFrame),
        transform_development_data PyNone lo hi s = (s, inl AttributeError)) /\
    (frames = [] ->
     forall backend emdat, main fetch reshape backend indicators emdat = PipelineFailed).
Proof.
  intros frames.
  destruct (extract_development_data_spec fetch reshape indicators) as (lg & Hrun & Hlog).
  fold frames in Hrun. exists lg. repeat split.
  - intros H. now rewrite Hrun, H.
  - intros H. rewrite Hrun. destruct frames; [contradiction|reflexivity].
  - exact Hlog.
  - intros H backend emdat. unfold main. rewrite Hrun, H. simpl.
    now destruct (extract_disaster_data "PRI" emdat).
Qed.

Lemma extract_development_data_batches_witness :
  usable_frames fetch_nothing (batches ["A"; "B"]%string) = [] /\
  exists lg,
    extract_development_data fetch_nothing reshape_sample ["A"; "B"]%string
    = (inr None, lg) /\
    forall backend emdat,
      main fetch_nothing reshape_sample backend ["A"; "B"]%string emdat = PipelineFailed.
Proof.
  split; [reflexivity|].
  destruct (extract_development_data_batches fetch_nothing reshape_sample
              ["A"; "B"]%string) as (lg & H1 & _ & _ & _ & H5).
  exists lg. split; [apply H1; reflexivity|apply H5; reflexivity].
Defined.

(** C8 as stated does not hold: a provider whose only batch succeeds
    with an empty frame gives [None], not a table, even when the
    reshaping cannot fail. *)
Lemma extract_development_data_empty_batch_no_table :
  ~ (forall (fetch : list string -> string + BatchFrame)
            (reshape : list BatchFrame -> result DataFrame)
            (indicators : list string),
        (forall l, exists f, reshape l = inr f) ->
        (exists b df, In b (batches indicators) /\ fetch b = inr df) ->
        exists f, fst (extract_development_data fetch reshape indicators)
                  = inr (Some f)).
Proof.
  intros H.
  destruct (H fetch_nothing reshape_sample ["A"; "B"]%string) as [f Hf].
  - intros l. eexists. reflexivity.
  - eexists _, _. split; [left; reflexivity|reflexivity].
  - vm_compute in Hf. discriminate Hf.
Qed.

(** Two batches of 100 and 1 indicators: the first is fetched, the
    second times out; the table is built from the first alone. *)
Example extract_development_data_sample :
  let indicators := repeat "A"%string 100 ++ ["B"%string] in
  let out := extract_development_data fetch_only_A reshape_sample indicators in
  map (length (A:=string)) (batches indicators) = [100; 1]%nat
  /\ (exists final_df, fst out = inr (Some final_df))
  /\ failed_numbers (snd out) = [2%nat].
Proof.
  split; [vm_compute; reflexivity|].
  split; [eexists; vm_compute; reflexivity|vm_compute; reflexivity].
Qed.

(** * Further properties of the code *)

(** ** Gap resolution: what it keeps and what it can produce *)

Lemma interpolate_from_complete (vs : list value) (p : Q) (g : nat) :
  forallb notna vs = true -> interpolate_from p g vs = vs.
Proof.
  revert p g. induction vs as [|[x|] t IH]; intros p g; simpl;
    [reflexivity| |discriminate].
  intros H. now rewrite IH.
Qed.

Lemma resolve_gaps_complete (vs : list value) :
  forallb notna vs = true -> resolve_gaps vs = vs.
Proof.
  intros H. unfold resolve_gaps, ffill.
  assert (K : interpolate vs = vs).
  { destruct vs as [|[x|] t]; simpl in *; [reflexivity| |discriminate].
    now rewrite interpolate_from_complete. }
  rewrite K, (bfill_valid _ H). now apply ffill_from_valid.
Qed.

Lemma resolve_gaps_no_number (vs : list value) :
  existsb notna vs = false -> resolve_gaps vs = vs.
Proof.
  intros H. unfold resolve_gaps, ffill.
  assert (K : interpolate vs = vs).
  { induction vs as [|[x|] t IH]; simpl in *; [reflexivity|discriminate|].
    now rewrite IH. }
  assert (B : bfill vs = vs).
  { clear K. induction vs as [|[x|] t IH]; simpl in *; [reflexivity|discriminate|].
    rewrite (IH H). destruct t as [|[y|] t']; simpl in *; [reflexivity|discriminate|reflexivity]. }
  rewrite K, B. clear K B.
  induction vs as [|[x|] t IH]; simpl in *; [reflexivity|discriminate|].
  now rewrite IH.
Qed.

(** X1. Gap resolution settles a row in one pass: applied to its own
    result it changes nothing. A row without NaN is returned as it is,
    and so is a row without any number, which stays all NaN. *)
Theorem resolve_gaps_idempotent (vs : list value) :
  resolve_gaps (resolve_gaps vs) = resolve_gaps vs
  /\ (forallb notna vs = true -> resolve_gaps vs = vs)
  /\ (existsb notna vs = false -> resolve_gaps vs = vs).
Proof.
  split; [|split; [apply resolve_gaps_complete|apply resolve_gaps_no_number]].
  destruct (existsb notna vs) eqn:E.
  - apply resolve_gaps_complete. now apply resolve_gaps_valid.
  - now rewrite !(resolve_gaps_no_number _ E).
Qed.

Lemma resolve_gaps_idempotent_witness :
  forallb notna [Some 1%Q; Some 2%Q] = true /\
  resolve_gaps [Some 1%Q; Some 2%Q] = [Some 1%Q; Some 2%Q] /\
  existsb notna [None; None] = false /\
  resolve_gaps [None; None] = [None; None].
Proof.
  split; [reflexivity|]. split.
  - apply (proj1 (proj2 (resolve_gaps_idempotent [Some 1%Q; Some 2%Q]))). reflexivity.
  - split; [reflexivity|].
    apply (proj2 (proj2 (resolve_gaps_idempotent [None; None]))). reflexivity.
Defined.






Lemma lerp_between (lo hi a b : Q) (k n : nat) :
  (lo <= a <= hi)%Q -> (lo <= b <= hi)%Q -> (0 < n)%nat -> (k <= n)%nat ->
  (lo <= lerp a b k n <= hi)%Q.
Proof.
  intros Ha Hb Hn Hk. unfold lerp. rewrite Qred_correct.
  assert (Hn' : (0 < inject_Z (Z.of_nat n))%Q).
  { replace 0%Q with (inject_Z 0) by reflexivity. rewrite <- Zlt_Qlt. lia. }
  assert (Hk' : (0 <= inject_Z (Z.of_nat k))%Q).
  { replace 0%Q with (inject_Z 0) by reflexivity. rewrite <- Zle_Qle. lia. }
  assert (Hkn : (inject_Z (Z.of_nat k) <= inject_Z (Z.of_nat n))%Q).
  { rewrite <- Zle_Qle. lia. }
  set (t := (inject_Z (Z.of_nat k) / inject_Z (Z.of_nat n))%Q).
  assert (Ht : (0 <= t <= 1)%Q).
  { split.
    - apply Qle_shift_div_l; [exact Hn'|]. lra.
    - apply Qle_shift_div_r; [exact Hn'|]. lra. }
  assert (E : ((b - a) / inject_Z (Z.of_nat n) * inject_Z (Z.of_nat k) + a
               == (b - a) * t + a)%Q).
  { unfold t. field. intros Hz. rewrite Hz in Hn'. now apply Qlt_irrefl in Hn'. }
  rewrite E. split; nra.
Qed.

Lemma next_valid_In (vs : list value) (d : nat) (y : Q) :
  next_valid vs = Some (d, y) -> In (Some y) vs.
Proof.
  revert d. induction vs as [|[x|] t IH]; intros d; simpl; [discriminate| |].
  - intros [= _ <-]. now left.
  - destruct (next_valid t) as [[d' y']|]; [|discriminate].
    intros [= _ <-]. right. now apply (IH d').
Qed.

Lemma bounded_In (lo hi : Q) (vs : list value) (x : Q) :
  bounded lo hi vs -> In (Some x) vs -> (lo <= x <= hi)%Q.
Proof.
  unfold bounded. rewrite List.Forall_forall. intros H Hx. exact (H _ Hx).
Qed.

Lemma interpolate_from_bounded (lo hi : Q) (vs : list value) (p : Q) (g : nat) :
  (lo <= p <= hi)%Q -> bounded lo hi vs -> bounded lo hi (interpolate_from p g vs).
Proof.
  revert p g. induction vs as [|[x|] t IH]; intros p g Hp Hb; simpl.
  - constructor.
  - inversion Hb; subst. constructor; [assumption|]. now apply IH.
  - inversion Hb; subst. constructor; [|now apply IH].
    destruct (next_valid t) as [[d y]|] eqn:E; [|exact Hp].
    apply lerp_between; [exact Hp| |lia|lia].
    apply (bounded_In lo hi t); [assumption|]. now apply next_valid_In in E.
Qed.

Lemma interpolate_bounded (lo hi : Q) (vs : list value) :
  bounded lo hi vs -> bounded lo hi (interpolate vs).
Proof.
  induction vs as [|[x|] t IH]; intros Hb; simpl.
  - constructor.
  - inversion Hb; subst. constructor; [assumption|].
    now apply interpolate_from_bounded.
  - inversion Hb; subst. constructor; [exact I|]. now apply IH.
Qed.

Lemma bfill_bounded (lo hi : Q) (vs : list value) :
  bounded lo hi vs -> bounded lo hi (bfill vs).
Proof.
  induction vs as [|[x|] t IH]; intros Hb; simpl.
  - constructor.
  - inversion Hb; subst. constructor; [assumption|]. now apply IH.
  - inversion Hb; subst. specialize (IH H2). constructor; [|exact IH].
    destruct (bfill t) as [|v t']; simpl; [exact I|]. now inversion IH.
Qed.

Lemma ffill_from_bounded (lo hi : Q) (vs : list value) (p : value) :
  match p with Some x => (lo <= x <= hi)%Q | None => True end ->
  bounded lo hi vs -> bounded lo hi (ffill_from p vs).
Proof.
  revert p. induction vs as [|[x|] t IH]; intros p Hp Hb; simpl.
  - constructor.
  - inversion Hb; subst. constructor; [assumption|]. now apply IH.
  - inversion Hb; subst. constructor; [exact Hp|]. now apply IH.
Qed.

Lemma resolve_gaps_bounded (lo hi : Q) (vs : list value) :
  bounded lo hi vs -> bounded lo hi (resolve_gaps vs).
Proof.
  intros Hb. unfold resolve_gaps, ffill.
  apply ffill_from_bounded; [exact I|]. now apply bfill_bounded, interpolate_bounded.
Qed.



(** ** The whole transformation as one expression *)

Lemma transformed_resolved (t : DataFrame) :
  transformed t = with_rows t (map resolved (kept_rows t)).
Proof.
  unfold transformed.
  destruct (existsb any_isna (map nums (kept_rows t))) eqn:E; [reflexivity|].
  f_equal. rewrite <- (map_id (kept_rows t)) at 1.
  apply map_ext_in. intros r Hr. unfold resolved.
  rewrite resolve_gaps_complete; [now rewrite with_nums_same|].
  apply nan_count_valid, any_isna_false.
  apply (existsb_false_In _ _ _ E). now apply in_map.
Qed.

Lemma filter_sublist {A} (p : A -> bool) (l : list A) : sublist (List.filter p l) l.
Proof.
  induction l as [|x l IH]; simpl; [constructor|].
  destruct (p x); now constructor.
Qed.

Lemma sublist_map {A B} (f : A -> B) (l1 l2 : list A) :
  sublist l1 l2 -> sublist (map f l1) (map f l2).
Proof. induction 1; simpl; now constructor. Qed.

(** X3. The table [transform_development_data] returns is the selected
    frame with the rows that pass the density test and are not zero
    throughout, each gap-resolved: testing for NaN before filling is a
    shortcut that does not change the result. The identity cells of
    the output rows are those of the selected rows, in the same order,
    with some rows left out; no row is added. *)
Theorem transform_development_data_result
    (s : list DataFrame) (a : nat) (df t : DataFrame) (lo hi : Z) :
  s !! a = Some df ->
  df_loc identity_labels (year_labels lo hi) df = inr t ->
  let N := Z.of_nat (length (year_labels lo hi)) in
  exists s' out,
    transform_development_data (PyFrame a) lo hi s = (s', inr (length s + 4)%nat) /\
    s' !! (length s + 4)%nat = Some out /\
    id_columns out = identity_labels /\
    num_columns out = year_labels lo hi /\
    rows out
    = map (fun r => with_nums r (resolve_gaps (nums r)))
          (List.filter (fun r => negb (all_zero (nums r)))
             (List.filter (fun r => nan_count (nums r) <=? N / 2) (rows t))) /\
    sublist (map ids (rows out)) (map ids (rows t)) /\
    length (rows t) = length (rows df).
Proof.
  intros Hs Hloc N.
  destruct (df_loc_header _ _ _ _ Hloc) as (Hid & Hnum & _ & Hlen).
  destruct (transform_development_data_run _ _ _ _ _ _ Hs Hloc)
    as (t1 & t2 & t3 & Hrun).
  eexists _, (transformed t). split; [exact Hrun|].
  split; [now rewrite lookup_app_plus|].
  rewrite transformed_resolved. simpl.
  split; [exact Hid|]. split; [exact Hnum|].
  assert (K : kept_rows t
              = List.filter (fun r => negb (all_zero (nums r)))
                  (List.filter (fun r => nan_count (nums r) <=? N / 2) (rows t))).
  { unfold kept_rows, zero_row, dense, shape_1, N. now rewrite Hnum. }
  rewrite K. split; [reflexivity|]. split; [|exact Hlen].
  rewrite map_map. simpl.
  apply sublist_map.
  etransitivity; apply filter_sublist.
Qed.

Lemma transform_development_data_result_witness :
  [wdi_sample] !! 0%nat = Some wdi_sample /\
  df_loc identity_labels (year_labels 2018 2023) wdi_sample = inr selected_sample /\
  exists s' out,
    transform_development_data (PyFrame 0) 2018 2023 [wdi_sample]
    = (s', inr (length [wdi_sample] + 4)%nat) /\
    s' !! (length [wdi_sample] + 4)%nat = Some out /\
    id_columns out = identity_labels /\
    num_columns out = year_labels 2018 2023 /\
    rows out
    = map (fun r => with_nums r (resolve_gaps (nums r)))
          (List.filter (fun r => negb (all_zero (nums r)))
             (List.filter (fun r => nan_count (nums r) <=? 6 / 2) (rows selected_sample))) /\
    sublist (map ids (rows out)) (map ids (rows selected_sample)) /\
    length (rows selected_sample) = length (rows wdi_sample).
Proof.
  split; [reflexivity|]. split; [reflexivity|].
  apply (transform_development_data_result [wdi_sample] 0 wdi_sample selected_sample
           2018 2023); reflexivity.
Defined.

(** X4. The all-zero filter runs before the gaps are filled, so a row
    that is zero wherever it is known but has a gap is not removed: if
    it passes the density test it comes out of
    [transform_development_data] with every year cell equal to 0. *)
Theorem transform_development_data_zero_row_survives
    (s : list DataFrame) (a : nat) (df t : DataFrame) (lo hi : Z) (r : Row) :
  s !! a = Some df ->
  df_loc identity_labels (year_labels lo hi) df = inr t ->
  In r (rows t) ->
  nan_count (nums r) <= Z.of_nat (length (year_labels lo hi)) / 2 ->
  In None (nums r) ->
  (forall x, In (Some x) (nums r) -> (x == 0)%Q) ->
  exists s' out r',
    transform_development_data (PyFrame a) lo hi s = (s', inr (length s + 4)%nat) /\
    s' !! (length s + 4)%nat = Some out /\
    In r' (rows out) /\
    ids r' = ids r /\
    nums r' <> [] /\
    forall v, In v (nums r') -> exists x, v = Some x /\ (x == 0)%Q.
Proof.
  intros Hs Hloc Hr Hdense Hnan Hzero.
  destruct (transform_development_data_run _ _ _ _ _ _ Hs Hloc)
    as (t1 & t2 & t3 & Hrun).
  destruct (df_loc_header _ _ _ _ Hloc) as (_ & Hnum & Hrect & _).
  pose proof (rectangular_In _ _ Hrect Hr) as Hlen. rewrite Hnum in Hlen.
  eexists _, (transformed t), (resolved r).
  split; [exact Hrun|]. split; [now rewrite lookup_app_plus|]. split.
  { rewrite transformed_resolved. simpl. apply in_map. apply kept_rows_In.
    split; [exact Hr|]. split.
    - unfold dense, shape_1. rewrite Hnum. now apply Z.leb_le.
    - unfold zero_row. destruct (all_zero (nums r)) eqn:E; [|reflexivity].
      unfold all_zero in E. rewrite forallb_forall in E.
      specialize (E None Hnan). discriminate. }
  split; [reflexivity|]. simpl.
  assert (Hpos : nums r <> []) by (intros K; rewrite K in Hnan; contradiction).
  split.
  { intros K. apply (f_equal (@length _)) in K.
    rewrite resolve_gaps_length in K. destruct (nums r); [contradiction|discriminate]. }
  assert (Hb : bounded 0 0 (nums r)).
  { unfold bounded. apply List.Forall_forall. intros [x|] Hx; [|exact I].
    rewrite (Hzero x Hx). split; apply Qle_refl. }
  assert (Hnumber : existsb notna (nums r) = true).
  { apply (dense_has_number (Z.of_nat (length (nums r)))); [reflexivity| |].
    - destruct (nums r); [contradiction|simpl; lia].
    - unfold dense. apply Z.leb_le. now rewrite Hlen. }
  pose proof (resolve_gaps_bounded 0 0 _ Hb) as Hb'.
  pose proof (resolve_gaps_valid _ Hnumber) as Hv. rewrite forallb_forall in Hv.
  intros v Hin. specialize (Hv v Hin). destruct v as [x|]; [|discriminate].
  exists x. split; [reflexivity|].
  apply (bounded_In 0 0 _ x Hb') in Hin. apply Qle_antisym; tauto.
Qed.

Lemma transform_development_data_zero_row_survives_witness :
  exists s' out r',
    transform_development_data (PyFrame 0) 2018 2020 [zero_gap_sample]
    = (s', inr (length [zero_gap_sample] + 4)%nat) /\
    s' !! (length [zero_gap_sample] + 4)%nat = Some out /\
    In r' (rows out) /\
    ids r' = ["PRI"; "Quiet"]%string /\
    nums r' <> [] /\
    forall v, In v (nums r') -> exists x, v = Some x /\ (x == 0)%Q.
Proof.
  apply (transform_development_data_zero_row_survives
           [zero_gap_sample] 0 zero_gap_sample
           {| id_columns := identity_labels;
              num_columns := year_labels 2018 2020;
              rows := [ {| ids := ["PRI"; "Quiet"]%string;
                           nums := [Some 0%Q; None; Some 0%Q] |} ] |}
           2018 2020
           {| ids := ["PRI"; "Quiet"]%string; nums := [Some 0%Q; None; Some 0%Q] |}).
  - reflexivity.
  - reflexivity.
  - left. reflexivity.
  - vm_compute. discriminate.
  - right. left. reflexivity.
  - intros x [H|[H|[H|[]]]]; try discriminate H; injection H as <-; reflexivity.
Defined.

(** ** More on [transform_disaster_data] and [extract_disaster_data] *)

Lemma filter_idempotent {A} (p : A -> bool) (l : list A) :
  List.filter p (List.filter p l) = List.filter p l.
Proof.
  rewrite filter_filter. apply filter_ext. intros x. now destruct (p x).
Qed.

Lemma filter_sublist_impl {A} (p q : A -> bool) (l : list A) :
  (forall x, p x = true -> q x = true) ->
  sublist (List.filter p l) (List.filter q l).
Proof.
  intros H. induction l as [|x l IH]; simpl; [constructor|].
  destruct (p x) eqn:E.
  - rewrite (H x E). now constructor.
  - destruct (q x); [now constructor|exact IH].
Qed.

(** X5. [transform_disaster_data] is idempotent: called again, with the
    same year range and threshold, on the table it returned, it returns
    an equal table. *)
Theorem transform_disaster_data_idempotent
    (d : list DisasterTable) (a : nat) (x : DisasterTable) (lo hi m : Z) :
  d !! a = Some x ->
  exists d1 a1 out,
    transform_disaster_data (PyFrame a) lo hi m d = (d1, inr a1) /\
    d1 !! a1 = Some out /\
    exists d2 a2,
      transform_disaster_data (PyFrame a1) lo hi m d1 = (d2, inr a2) /\
      d2 !! a2 = Some out.
Proof.
  intros H.
  destruct (transform_disaster_data_run _ _ _ lo hi m H) as (x1 & x2 & Hrun).
  set (out := List.filter (retained lo hi m) x) in *.
  set (d1 := d ++ [x; x1; x2; out]) in *.
  assert (H1 : d1 !! (length d + 3)%nat = Some out)
    by (unfold d1; now rewrite lookup_app_plus).
  exists d1, (length d + 3)%nat, out. split; [exact Hrun|]. split; [exact H1|].
  destruct (transform_disaster_data_run _ _ _ lo hi m H1) as (y1 & y2 & Hrun2).
  eexists _, _. split; [exact Hrun2|].
  rewrite lookup_app_plus. simpl. unfold out. now rewrite filter_idempotent.
Qed.

Lemma transform_disaster_data_idempotent_witness :
  [emdat_sample] !! 0%nat = Some emdat_sample /\
  exists d1 a1 out,
    transform_disaster_data (PyFrame 0) 2007 2023 500000 [emdat_sample] = (d1, inr a1) /\
    d1 !! a1 = Some out /\
    exists d2 a2,
      transform_disaster_data (PyFrame a1) 2007 2023 500000 d1 = (d2, inr a2) /\
      d2 !! a2 = Some out.
Proof.
  split; [reflexivity|].
  apply (transform_disaster_data_idempotent [emdat_sample] 0 emdat_sample 2007 2023 500000).
  reflexivity.
Defined.

(** X6. Tightening the parameters of [transform_disaster_data] can only
    remove events: with a year range inside the other and a threshold
    at least as high, the table returned is the other table with some
    events left out, in the same order. *)
Theorem transform_disaster_data_monotone
    (d : list DisasterTable) (a : nat) (x : DisasterTable)
    (lo hi m lo' hi' m' : Z) :
  d !! a = Some x ->
  lo' <= lo -> hi <= hi' -> m' <= m ->
  exists d1 a1 tight d2 a2 loose,
    transform_disaster_data (PyFrame a) lo hi m d = (d1, inr a1) /\
    d1 !! a1 = Some tight /\
    transform_disaster_data (PyFrame a) lo' hi' m' d = (d2, inr a2) /\
    d2 !! a2 = Some loose /\
    sublist tight loose /\
    sublist loose x.
Proof.
  intros H Hlo Hhi Hm.
  destruct (transform_disaster_data_run _ _ _ lo hi m H) as (x1 & x2 & Hrun).
  destruct (transform_disaster_data_run _ _ _ lo' hi' m' H) as (y1 & y2 & Hrun').
  eexists _, _, _, _, _, _. split; [exact Hrun|].
  split; [now rewrite lookup_app_plus|]. split; [exact Hrun'|].
  split; [now rewrite lookup_app_plus|]. split; [|apply filter_sublist].
  apply filter_sublist_impl. intros e He.
  apply retained_spec in He. apply retained_spec.
  destruct He as (Hy & Hs & Hq & n & Hn & Hle).
  split; [lia|]. split; [exact Hs|]. split; [exact Hq|].
  exists n. split; [exact Hn|].
  apply Qle_trans with (inject_Z m); [|exact Hle]. now rewrite <- Zle_Qle.
Qed.

Lemma transform_disaster_data_monotone_witness :
  [emdat_sample] !! 0%nat = Some emdat_sample /\
  exists d1 a1 tight d2 a2 loose,
    transform_disaster_data (PyFrame 0) 2007 2023 500000 [emdat_sample] = (d1, inr a1) /\
    d1 !! a1 = Some tight /\
    transform_disaster_data (PyFrame 0) 2000 2023 100 [emdat_sample] = (d2, inr a2) /\
    d2 !! a2 = Some loose /\
    sublist tight loose /\
    sublist loose emdat_sample.
Proof.
  split; [reflexivity|].
  apply (transform_disaster_data_monotone [emdat_sample] 0 emdat_sample
           2007 2023 500000 2000 2023 100); [reflexivity|lia|lia|lia].
Defined.

(** X7. An event whose magnitude scale, magnitude or total affected is
    missing is never returned by [transform_disaster_data], whatever
    the year range and however low the threshold, zero and negative
    thresholds included. *)
Theorem transform_disaster_data_drops_missing
    (d : list DisasterTable) (a : nat) (lo hi m : Z)
    (d' : list DisasterTable) (a' : nat) (out : DisasterTable) (e : Event) :
  transform_disaster_data (PyFrame a) lo hi m d = (d', inr a') ->
  d' !! a' = Some out ->
  In e out ->
  Magnitude_Scale e <> None /\ Magnitude e <> None /\ Total_Affected e <> None.
Proof.
  intros Hrun Hout He.
  destruct (d !! a) as [x0|] eqn:Hd.
  - destruct (transform_disaster_data_run _ _ _ lo hi m Hd) as (x1 & x2 & Hrun').
    rewrite Hrun' in Hrun. injection Hrun as <- <-.
    rewrite lookup_app_plus in Hout. simpl in Hout. injection Hout as <-.
    apply filter_In in He. destruct He as [_ He].
    apply retained_spec in He.
    destruct He as (_ & Hs & (q & Hq & _) & n & Hn & _).
    rewrite Hs, Hq, Hn. repeat split; discriminate.
  - unfold transform_disaster_data, bind in Hrun.
    unfold DisasterTable in *. rewrite (copy_dangling _ _ Hd) in Hrun.
    discriminate.
Qed.

Lemma transform_disaster_data_drops_missing_witness :
  let run := transform_disaster_data (PyFrame 0) 2007 2023 (-5) [emdat_sample] in
  run = (fst run, inr 4%nat) /\
  forall out e, fst run !! 4%nat = Some out -> In e out ->
    Magnitude_Scale e <> None /\ Magnitude e <> None /\ Total_Affected e <> None.
Proof.
  split; [vm_compute; reflexivity|].
  intros out e Hout He.
  apply (transform_disaster_data_drops_missing
           [emdat_sample] 0 2007 2023 (-5)
           (fst (transform_disaster_data (PyFrame 0) 2007 2023 (-5) [emdat_sample]))
           4%nat out e); [vm_compute; reflexivity|exact Hout|exact He].
Defined.


(** ** More on [generate_report] *)

Lemma draw_markers_spec (country_code : string) (year_cols : list string)
    (n k : nat) (events : DisasterTable) :
  let out := draw_markers country_code year_cols n k events in
  fst out = (k + length (marked year_cols events))%nat
  /\ map marker_x (snd out) = map (fun e => str (Start_Year e)) (marked year_cols events)
  /\ map marker_label (snd out)
     = map (fun e => (Event_Name e ++ label_suffix country_code (OFDA_BHA_Response e))%string)
           (marked year_cols events)
  /\ map marker_color (snd out)
     = map (fun j => ((k + j) mod n)%nat) (seq 0 (length (marked year_cols events))).
Proof.
  revert k. induction events as [|e rest IH]; intros k; simpl.
  - repeat split. lia.
  - unfold marked. simpl. fold (marked year_cols rest).
    destruct (mem (str (Start_Year e)) year_cols).
    + specialize (IH (S k)). simpl in IH.
      destruct (draw_markers country_code year_cols n (S k) rest) as [k' ms].
      simpl in *. destruct IH as (I1 & I2 & I3 & I4).
      repeat split.
      * lia.
      * now rewrite I2.
      * now rewrite I3.
      * rewrite Nat.add_0_r, I4. f_equal.
        rewrite <- seq_shift, map_map. apply map_ext. intros j.
        f_equal. lia.
    + apply IH.
Qed.

Lemma n_storms_positive (dis_data : DisasterTable) :
  dis_data <> [] -> (0 < n_storms dis_data)%nat.
Proof.
  intros H. unfold n_storms. destruct dis_data as [|e rest]; [contradiction|].
  assert (K : In (Event_Name e) (nodup string_dec (map Event_Name (e :: rest)))).
  { apply nodup_In. now left. }
  destruct (nodup string_dec (map Event_Name (e :: rest))); [contradiction|simpl; lia].
Qed.

Lemma draw_markers_in_palette (country_code : string) (year_cols : list string)
    (k : nat) (dis_data : DisasterTable) (m : Marker) :
  In m (snd (draw_markers country_code year_cols (n_storms dis_data) k dis_data)) ->
  (marker_color m < n_storms dis_data)%nat.
Proof.
  intros Hm.
  destruct (draw_markers_spec country_code year_cols (n_storms dis_data) k dis_data)
    as (_ & _ & _ & H4).
  assert (Hc : In (marker_color m)
                  (map marker_color
                     (snd (draw_markers country_code year_cols (n_storms dis_data)
                             k dis_data)))) by now apply in_map.
  rewrite H4 in Hc. apply in_map_iff in Hc. destruct Hc as (j & <- & Hj).
  apply Nat.mod_upper_bound.
  assert (Hne : dis_data <> []).
  { intros K. apply in_seq in Hj. unfold marked in Hj. rewrite K in Hj. simpl in Hj. lia. }
  apply n_storms_positive in Hne. lia.
Qed.

(** X9. The markers of one chart are the events of the disaster table
    whose start year is a column of the chart, in table order, each
    labelled with its name and the aid suffix. Colours are taken from
    the cycle in turn, the [j]-th marker getting colour
    [(k + j) mod n] where [k] colours were used on earlier pages and
    [n] is the number of distinct event names; the colour always
    exists (it is below [n]), and the next page goes on from
    [k + number of markers]. *)
Theorem draw_markers_cycle (country_code : string) (year_cols : list string)
    (k : nat) (dis_data : DisasterTable) :
  let n := n_storms dis_data in
  let out := draw_markers country_code year_cols n k dis_data in
  fst out = (k + length (marked year_cols dis_data))%nat
  /\ map marker_x (snd out) = map (fun e => str (Start_Year e)) (marked year_cols dis_data)
  /\ map marker_label (snd out)
     = map (fun e => (Event_Name e ++ label_suffix country_code (OFDA_BHA_Response e))%string)
           (marked year_cols dis_data)
  /\ map marker_color (snd out)
     = map (fun j => ((k + j) mod n)%nat) (seq 0 (length (marked year_cols dis_data)))
  /\ forall m, In m (snd out) -> (marker_color m < n)%nat.
Proof.
  intros n out.
  destruct (draw_markers_spec country_code year_cols n k dis_data) as (H1 & H2 & H3 & H4).
  fold out in H1, H2, H3, H4.
  repeat split; try assumption.
  intros m Hm. now apply (draw_markers_in_palette country_code year_cols k).
Qed.

Lemma forallb_isna_false (vs : list value) :
  forallb isna vs = false -> existsb notna vs = true.
Proof.
  induction vs as [|[x|] t IH]; simpl; [discriminate|reflexivity|exact IH].
Qed.

Lemma filter_split_length {A} (p : A -> bool) (l : list A) :
  (length (List.filter p l) + length (List.filter (fun x => negb (p x)) l))%nat
  = length l.
Proof.
  induction l as [|x l IH]; simpl; [reflexivity|].
  destruct (p x); simpl; lia.
Qed.

Lemma pages_loop_accounting
    (backend : Page -> option (nat * string)) (country_code : string)
    (dev_data : DataFrame) (dis_data : DisasterTable)
    (name_at : nat) (rs : list Row) (i k : nat) :
  let out := pages_loop backend country_code dev_data dis_data name_at i k rs in
  skip_warnings (snd out)
  = map (indicator_at name_at) (List.filter (skipped dev_data) rs)
  /\ (length (fst out) + length (plot_errors (snd out)))%nat
     = length (List.filter (fun r => negb (skipped dev_data r)) rs)
  /\ Forall (page_ok country_code dev_data dis_data) (fst out).
Proof.
  revert i k. induction rs as [|r rest IH]; intros i k.
  { simpl. repeat split. constructor. }
  cbn zeta. simpl pages_loop.
  fold (skipped dev_data r). fold (indicator_at name_at r).
  destruct (skipped dev_data r) eqn:Hsk.
  - specialize (IH (S i) k). cbn zeta in IH.
    destruct (pages_loop backend country_code dev_data dis_data name_at (S i) k rest)
      as [ps lg].
    simpl fst in *. simpl snd in *.
    rewrite plot_errors_progress, skip_warnings_progress.
    simpl. rewrite Hsk. simpl.
    destruct IH as (IH1 & IH2 & IH3). repeat split; [now rewrite IH1|exact IH2|exact IH3].
  - pose proof (draw_markers_spec country_code (year_cols dev_data)
                  (n_storms dis_data) k dis_data) as Hm.
    pose proof (draw_markers_in_palette country_code (year_cols dev_data) k dis_data)
      as Hcol.
    cbn zeta in Hm.
    destruct (draw_markers country_code (year_cols dev_data) (n_storms dis_data) k dis_data)
      as [k' ms].
    simpl fst in Hm. simpl snd in Hm. simpl snd in Hcol. destruct Hm as (_ & Hx & _ & _).
    match goal with
    | |- context [backend ?p] => set (page := p)
    end.
    assert (Hpage : page_ok country_code dev_data dis_data page).
    { unfold page_ok, page. simpl. repeat split.
      - unfold row_values. now rewrite length_map.
      - apply forallb_isna_false. exact Hsk.
      - exact Hx.
      - exact Hcol. }
    destruct (backend page) as [[taken msg]|].
    + specialize (IH (S i) (k + taken)%nat). cbn zeta in IH.
      destruct (pages_loop backend country_code dev_data dis_data name_at (S i)
                           (k + taken) rest) as [ps lg].
      destruct IH as (IH1 & IH2 & IH3). simpl fst in *. simpl snd in *.
      rewrite plot_errors_progress, skip_warnings_progress.
      simpl. rewrite Hsk. simpl.
      repeat split; [exact IH1|lia|exact IH3].
    + specialize (IH (S i) k'). cbn zeta in IH.
      destruct (pages_loop backend country_code dev_data dis_data name_at (S i) k' rest)
        as [ps lg].
      destruct IH as (IH1 & IH2 & IH3). simpl fst in *. simpl snd in *.
      rewrite plot_errors_progress, skip_warnings_progress.
      simpl. rewrite Hsk. simpl.
      repeat split; [exact IH1|lia|now constructor].
Qed.

(** X10. Whatever the backend does, a report that is written accounts
    for every indicator exactly once: the number of pages, of plot
    error lines and of skip warnings add up to the number of rows.
    Every page shows the year columns with one value per year, at
    least one of them a number, is titled with the country code and the
    indicator, and carries one marker per event of a chart year, in a
    colour of the palette. *)
Theorem generate_report_accounts
    (backend : Page -> option (nat * string)) (country_code : string)
    (dev_data : DataFrame) (dis_data : DisasterTable)
    (pages : list Page) (lg : list LogLine) :
  generate_report backend country_code dev_data dis_data = (inr pages, lg) ->
  (length pages + length (plot_errors lg) + length (skip_warnings lg))%nat
  = length (rows dev_data)
  /\ Forall (page_ok country_code dev_data dis_data) pages.
Proof.
  unfold generate_report.
  destruct (year_cols dev_data) as [|y ys] eqn:Hy; [discriminate|].
  destruct (index_of "Indicator Name" (id_columns dev_data)) as [name_at|].
  - pose proof (pages_loop_accounting backend country_code dev_data dis_data
                  name_at (rows dev_data) 1 0) as H.
    cbn zeta in H.
    destruct (pages_loop backend country_code dev_data dis_data name_at 1 0 (rows dev_data))
      as [ps l0].
    simpl fst in H. simpl snd in H. destruct H as (H1 & H2 & H3).
    intros [= <- <-]. split; [|exact H3].
    assert (E1 : plot_errors (InfoFound (total_indicators dev_data) :: l0 ++ [InfoSaved])
                 = plot_errors l0).
    { unfold plot_errors. simpl. rewrite flat_map_app. simpl. now rewrite app_nil_r. }
    assert (E2 : skip_warnings (InfoFound (total_indicators dev_data) :: l0 ++ [InfoSaved])
                 = skip_warnings l0).
    { unfold skip_warnings. simpl. rewrite flat_map_app. simpl. now rewrite app_nil_r. }
    rewrite E1, E2, H1, length_map, H2.
    rewrite Nat.add_comm. apply filter_split_length.
  - destruct (rows dev_data) as [|r rest]; [|discriminate].
    intros [= <- <-]. simpl. split; [reflexivity|constructor].
Qed.

Lemma generate_report_accounts_witness :
  let out := generate_report (fun p => fails_on_I3 (page_indicator p))
                             "PRI" report_sample emdat_sample in
  exists pages,
    out = (inr pages, snd out) /\
    (length pages + length (plot_errors (snd out)) + length (skip_warnings (snd out)))%nat
    = length (rows report_sample)
    /\ Forall (page_ok "PRI" report_sample emdat_sample) pages.
Proof.
  cbn zeta.
  destruct (generate_report (fun p => fails_on_I3 (page_indicator p))
                            "PRI" report_sample emdat_sample) as [[e|pages] lg] eqn:E.
  - vm_compute in E. discriminate E.
  - exists pages. split; [reflexivity|].
    apply (generate_report_accounts (fun p => fails_on_I3 (page_indicator p))
             "PRI" report_sample emdat_sample pages lg). exact E.
Defined.

(** X11. [generate_report] raises in two cases only, both outside the
    loop's own [try]: [ValueError] when the table has no column named
    by digits, and otherwise [KeyError] when it has rows but no column
    [Indicator Name]. No outcome of the backend makes it raise. *)
Theorem generate_report_raises
    (backend : Page -> option (nat * string)) (country_code : string)
    (dev_data : DataFrame) (dis_data : DisasterTable) :
  match fst (generate_report backend country_code dev_data dis_data) with
  | inl e =>
      (year_cols dev_data = [] /\ e = ValueError) \/
      (year_cols dev_data <> [] /\
       ~ In "Indicator Name"%string (id_columns dev_data) /\
       rows dev_data <> [] /\ e = KeyError "Indicator Name")
  | inr _ =>
      year_cols dev_data <> [] /\
      (In "Indicator Name"%string (id_columns dev_data) \/ rows dev_data = [])
  end.
Proof.
  unfold generate_report.
  destruct (year_cols dev_data) as [|y ys] eqn:Hy; [simpl; now left|]. rewrite <- Hy.
  assert (Hne : year_cols dev_data <> []) by (rewrite Hy; discriminate).
  destruct (index_of "Indicator Name" (id_columns dev_data)) as [name_at|] eqn:Hi.
  - destruct (pages_loop backend country_code dev_data dis_data name_at 1 0 (rows dev_data)).
    simpl. split; [exact Hne|]. left.
    apply index_of_Some in Hi. now apply nth_error_In in Hi.
  - apply index_of_None in Hi.
    destruct (rows dev_data) as [|r rest]; simpl.
    + split; [exact Hne|]. now right.
    + right. repeat split; try assumption. discriminate.
Qed.

(** ** Year labels *)

Lemma str_parse (z : Z) :
  NilZero.int_of_string (str z) = Some (Z.to_int z).
Proof.
  unfold str. apply NilZero.isi.
  - destruct z as [|p|p]; simpl; try discriminate.
    intros [= H]. now apply DecimalPos.Unsigned.to_uint_nonnil in H.
  - destruct z as [|p|p]; simpl; try discriminate.
    intros [= H]. now apply DecimalPos.Unsigned.to_uint_nonnil in H.
Qed.

Lemma str_inj (z z' : Z) : str z = str z' -> z = z'.
Proof.
  intros H. apply DecimalZ.to_int_inj.
  pose proof (str_parse z) as P. rewrite H, str_parse in P. now injection P.
Qed.

Lemma range_lookup (lo hi y : Z) :
  lo <= y < hi -> range lo hi !! Z.to_nat (y - lo) = Some y.
Proof.
  intros H. unfold range. rewrite list_lookup_fmap, lookup_seq_lt by lia.
  simpl. f_equal. lia.
Qed.

Lemma range_NoDup (lo hi : Z) : NoDup (range lo hi).
Proof.
  unfold range. apply NoDup_fmap_2; [|apply NoDup_seq].
  intros i j H. lia.
Qed.

Lemma index_of_lookup (x : string) (cols : list string) (i : nat) :
  NoDup cols -> cols !! i = Some x -> index_of x cols = Some i.
Proof.
  revert i. induction cols as [|c cols IH]; intros i Hnd Hi; [discriminate|].
  apply NoDup_cons in Hnd. destruct Hnd as [Hc Hnd]. simpl.
  destruct i as [|i]; simpl in Hi.
  - injection Hi as ->. now rewrite String.eqb_refl.
  - destruct (String.eqb c x) eqn:E.
    + apply String.eqb_eq in E. subst c. exfalso. apply Hc.
      apply list_elem_of_lookup. eauto.
    + now rewrite (IH i Hnd Hi).
Qed.

(** X12. The year columns that [transform_development_data] asks for
    are one per year of the range, in chronological order and without
    repeats: the label of year [y] is column number [y - df_min_year],
    and different years have different labels. *)
Theorem year_labels_chronological (lo hi : Z) :
  length (year_labels lo hi) = Z.to_nat (hi + 1 - lo)
  /\ NoDup (year_labels lo hi)
  /\ (forall y y', str y = str y' -> y = y')
  /\ forall y, lo <= y <= hi ->
       year_labels lo hi !! Z.to_nat (y - lo) = Some (str y)
       /\ index_of (str y) (year_labels lo hi) = Some (Z.to_nat (y - lo)).
Proof.
  assert (Hnd : NoDup (year_labels lo hi)).
  { unfold year_labels. apply NoDup_fmap_2; [|apply range_NoDup].
    intros y y'. apply str_inj. }
  split; [|split; [exact Hnd|split; [apply str_inj|]]].
  - unfold year_labels, range. now rewrite !length_map, length_seq.
  - intros y Hy.
    assert (L : year_labels lo hi !! Z.to_nat (y - lo) = Some (str y)).
    { unfold year_labels. rewrite list_lookup_fmap, range_lookup by lia. reflexivity. }
    split; [exact L|]. now apply index_of_lookup.
Qed.

Lemma year_labels_chronological_witness :
  2018 <= 2020 <= 2023 /\
  year_labels 2018 2023 !! Z.to_nat (2020 - 2018) = Some (str 2020) /\
  index_of (str 2020) (year_labels 2018 2023) = Some (Z.to_nat (2020 - 2018)).
Proof.
  split; [lia|].
  apply (proj2 (proj2 (proj2 (year_labels_chronological 2018 2023))) 2020). lia.
Defined.

(** ** From the transformer to the report *)

Lemma all_digits_uint (u : Decimal.uint) :
  all_digits (NilEmpty.string_of_uint u) = true.
Proof. induction u; simpl; try exact IHu; reflexivity. Qed.

Lemma isdigit_uint (u : Decimal.uint) : isdigit (NilZero.string_of_uint u) = true.
Proof.
  destruct u; try reflexivity; simpl; apply all_digits_uint.
Qed.

Lemma isdigit_str (z : Z) : isdigit (str z) = (0 <=? z).
Proof.
  unfold str. destruct z as [|p|p]; simpl Z.to_int; simpl NilZero.string_of_int.
  - reflexivity.
  - apply isdigit_uint.
  - reflexivity.
Qed.

Lemma filter_all {A} (p : A -> bool) (l : list A) :
  (forall x, In x l -> p x = true) -> List.filter p l = l.
Proof.
  induction l as [|x l IH]; simpl; intros H; [reflexivity|].
  rewrite (H x) by now left. f_equal. apply IH. intros y Hy. apply H. now right.
Qed.

Lemma complete_row_not_skipped (out : DataFrame) (r : Row) :
  length (nums r) = length (num_columns out) ->
  nan_count (nums r) = 0 ->
  year_cols out <> [] ->
  skipped out r = false.
Proof.
  intros Hlen Hnan Hyc. unfold skipped.
  destruct (year_cols out) as [|y ys] eqn:Hy; [contradiction|]. simpl.
  assert (Hin : In y (num_columns out)).
  { assert (K : In y (year_cols out)) by (rewrite Hy; now left).
    unfold year_cols in K. now apply filter_In in K. }
  destruct (index_of_In _ _ Hin) as [i Hi]. rewrite Hi.
  apply index_of_Some in Hi.
  assert (Hlt : (i < length (nums r))%nat).
  { rewrite Hlen. apply nth_error_Some. now rewrite Hi. }
  apply nan_count_valid in Hnan. rewrite forallb_forall in Hnan.
  specialize (Hnan (nth i (nums r) None) (nth_In _ _ Hlt)).
  now destruct (nth i (nums r) None).
Qed.

(** X13. On a table returned by [transform_development_data] the
    report never skips an indicator: each row has a number in every
    year column, so every row gets a page or a plot error line. The
    report sees as year columns the labels of the range when
    [df_min_year] is not negative, and with an empty range
    ([df_min_year > df_max_year]) it raises [ValueError]. *)
Theorem report_of_transformed
    (v : pyval) (lo hi : Z) (s s' : list DataFrame) (a' : nat) (out : DataFrame) :
  transform_development_data v lo hi s = (s', inr a') ->
  s' !! a' = Some out ->
  (0 <= lo -> year_cols out = year_labels lo hi)
  /\ (forall r, In r (rows out) -> year_cols out <> [] -> skipped out r = false)
  /\ forall backend country_code dis_data,
       (hi < lo ->
        fst (generate_report backend country_code out dis_data) = inl ValueError)
       /\ forall pages lg,
            generate_report backend country_code out dis_data = (inr pages, lg) ->
            skip_warnings lg = []
            /\ (length pages + length (plot_errors lg))%nat = length (rows out).
Proof.
  intros Hrun Hout.
  destruct (transform_development_data_returns _ _ _ _ _ _ Hrun)
    as (a & df & t & _ & _ & Hloc & Hout').
  rewrite Hout in Hout'. injection Hout' as ->.
  destruct (df_loc_header _ _ _ _ Hloc) as (_ & Hnum & Hrect & _).
  assert (Hcols : num_columns (transformed t) = year_labels lo hi) by exact Hnum.
  assert (Hskip : forall r, In r (rows (transformed t)) ->
                            year_cols (transformed t) <> [] ->
                            skipped (transformed t) r = false).
  { intros r Hr Hyc.
    destruct (transformed_clean t r Hrect Hr) as (Hlen & Hnan).
    now apply complete_row_not_skipped. }
  split; [|split; [exact Hskip|]].
  - intros Hlo. unfold year_cols. rewrite Hcols. apply filter_all.
    intros x Hx. unfold year_labels in Hx. apply in_map_iff in Hx.
    destruct Hx as (y & <- & Hy). apply range_In in Hy.
    rewrite isdigit_str. apply Z.leb_le. lia.
  - intros backend country_code dis_data. split.
    + intros Hlt. unfold generate_report, year_cols.
      rewrite Hcols, year_labels_empty by exact Hlt. reflexivity.
    + intros pages lg Hrep. unfold generate_report in Hrep.
      destruct (year_cols (transformed t)) as [|y ys] eqn:Hy; [discriminate|].
      assert (Hyc : year_cols (transformed t) <> []) by (rewrite Hy; discriminate).
      assert (Hnone : List.filter (skipped (transformed t)) (rows (transformed t)) = []).
      { apply filter_none. intros r Hr. now apply Hskip. }
      destruct (index_of "Indicator Name" (id_columns (transformed t))) as [name_at|].
      * pose proof (pages_loop_accounting backend country_code (transformed t) dis_data
                      name_at (rows (transformed t)) 1 0) as H.
        cbn zeta in H.
        destruct (pages_loop backend country_code (transformed t) dis_data name_at 1 0
                             (rows (transformed t))) as [ps l0].
        simpl fst in H. simpl snd in H. destruct H as (H1 & H2 & _).
        injection Hrep as <- <-.
        assert (E1 : plot_errors (InfoFound (total_indicators (transformed t))
                                  :: l0 ++ [InfoSaved]) = plot_errors l0).
        { unfold plot_errors. simpl. rewrite flat_map_app. simpl. now rewrite app_nil_r. }
        assert (E2 : skip_warnings (InfoFound (total_indicators (transformed t))
                                    :: l0 ++ [InfoSaved]) = skip_warnings l0).
        { unfold skip_warnings. simpl. rewrite flat_map_app. simpl. now rewrite app_nil_r. }
        rewrite E1, E2, H1, H2, Hnone. split; [reflexivity|].
        pose proof (filter_split_length (skipped (transformed t)) (rows (transformed t))) as K.
        rewrite Hnone in K. exact K.
      * destruct (rows (transformed t)) as [|r rest] eqn:Hr; [|discriminate].
        injection Hrep as <- <-. split; reflexivity.
Qed.

Lemma report_of_transformed_witness :
  let run := transform_development_data (PyFrame 0) 2018 2023 [wdi_sample] in
  run = (fst run, inr 5%nat) /\
  forall out, fst run !! 5%nat = Some out ->
    (0 <= 2018 -> year_cols out = year_labels 2018 2023)
    /\ (forall r, In r (rows out) -> year_cols out <> [] -> skipped out r = false).
Proof.
  split; [vm_compute; reflexivity|].
  intros out Hout.
  destruct (report_of_transformed (PyFrame 0) 2018 2023 [wdi_sample]
              (fst (transform_development_data (PyFrame 0) 2018 2023 [wdi_sample]))
              5%nat out) as (H1 & H2 & _);
    [vm_compute; reflexivity|exact Hout|].
  split; assumption.
Defined.

(** ** More on [extract_development_data] *)

Lemma chunks_concat {A} (n m : nat) (l : list A) :
  (length l <= m * n)%nat ->
  concat (map (fun k => firstn n (skipn (k * n) l)) (seq 0 m)) = l.
Proof.
  revert l. induction m as [|m IH]; intros l Hl; simpl.
  - destruct l; [reflexivity|simpl in Hl; lia].
  - rewrite <- seq_shift, map_map.
    rewrite (map_ext _ (fun k => firstn n (skipn (k * n) (skipn n l)))).
    + rewrite IH; [apply firstn_skipn|]. rewrite length_skipn. lia.
    + intros k. rewrite skipn_skipn. do 2 f_equal. lia.
Qed.

Lemma batches_count (l : list string) :
  let q := length (batches l) in
  (length l <= q * batch_size)%nat /\ (q * batch_size < length l + batch_size)%nat.
Proof.
  unfold batches, batch_size. rewrite length_map, length_seq.
  pose proof (Nat.div_mod_eq (length l + (100 - 1)) 100) as E.
  pose proof (Nat.mod_upper_bound (length l + (100 - 1)) 100) as U.
  cbn zeta. lia.
Qed.

(** X14. The batches are a partition of the indicator list into
    consecutive runs: put end to end they give the list back, so no
    indicator is requested twice or forgotten; batch number [k+1] holds
    [min(100, len - 100 k)] indicators, which is never zero, so all
    batches but the last hold exactly 100. *)
Theorem batches_partition (indicators : list string) :
  concat (batches indicators) = indicators
  /\ (forall k b, batches indicators !! k = Some b ->
        length b = Nat.min batch_size (length indicators - k * batch_size)
        /\ (0 < length b <= batch_size)%nat)
  /\ (batches indicators = [] <-> indicators = []).
Proof.
  destruct (batches_count indicators) as [Hq1 Hq2]. cbn zeta in *.
  split; [|split].
  - unfold batches. apply chunks_concat.
    unfold batches in Hq1. now rewrite length_map, length_seq in Hq1.
  - intros k b Hb.
    assert (Hk : (k < length (batches indicators))%nat)
      by (eapply lookup_lt_Some; eassumption).
    unfold batches in Hb. rewrite list_lookup_fmap in Hb.
    rewrite lookup_seq_lt in Hb.
    2:{ unfold batches in Hk. now rewrite length_map, length_seq in Hk. }
    simpl in Hb. injection Hb as <-.
    rewrite length_firstn, length_skipn.
    unfold batch_size in *. split; [reflexivity|]. nia.
  - split.
    + intros H. rewrite H in Hq1. simpl in Hq1.
      destruct indicators; [reflexivity|simpl in Hq1; lia].
    + intros ->. reflexivity.
Qed.

Lemma batches_partition_witness :
  batches (repeat "A"%string 100 ++ ["B"%string]) !! 1%nat = Some ["B"%string] /\
  length ["B"%string]
  = Nat.min batch_size (length (repeat "A"%string 100 ++ ["B"%string]) - 1 * batch_size)
  /\ (0 < length ["B"%string] <= batch_size)%nat.
Proof.
  split; [reflexivity|].
  apply (proj1 (proj2 (batches_partition (repeat "A"%string 100 ++ ["B"%string])))
           1%nat ["B"%string]).
  reflexivity.
Defined.



(** ** The driver *)

Lemma positions_found (labels cols : list string) (ps : list nat) (x : string) :
  positions labels cols = inr ps -> In x labels -> In x cols.
Proof.
  revert ps. induction labels as [|y t IH]; intros ps; simpl; [contradiction|].
  destruct (index_of y cols) as [i|] eqn:E; [|discriminate].
  destruct (positions t cols) as [e|qs]; [discriminate|].
  intros _ [<-|Hx].
  - apply index_of_Some in E. now apply nth_error_In in E.
  - now apply (IH qs).
Qed.

Lemma df_loc_found (il nl : list string) (df t : DataFrame) :
  df_loc il nl df = inr t ->
  (forall x, In x il -> In x (id_columns df)) /\
  (forall x, In x nl -> In x (num_columns df)).
Proof.
  unfold df_loc.
  destruct (positions il (id_columns df)) as [e|ps] eqn:P; [discriminate|].
  destruct (positions nl (num_columns df)) as [e|qs] eqn:Q; [discriminate|].
  intros _. split; intros x; [apply (positions_found _ _ _ _ P)|apply (positions_found _ _ _ _ Q)].
Qed.

(** X16. The run of [main] succeeds only if the EM-DAT file exists, at
    least one batch brought a frame that is not empty, and the combined
    table has the columns [Country Code] and [Indicator Name] and a
    column for each of the years 2007 to 2023; a table that lacks one
    of these years ends the run in failure. A missing EM-DAT file ends
    it in failure whatever the provider returned. *)
Theorem main_success_needs
    (fetch : list string -> string + BatchFrame)
    (reshape : list BatchFrame -> result DataFrame)
    (backend : Page -> option (nat * string))
    (indicators : list string) (emdat : option DisasterTable) :
  (forall pages,
      main fetch reshape backend indicators emdat = PipelineSucceeded pages ->
      exists d df,
        emdat = Some d /\
        usable_frames fetch (batches indicators) <> [] /\
        reshape (usable_frames fetch (batches indicators)) = inr df /\
        In "Country Code"%string (id_columns df) /\
        In "Indicator Name"%string (id_columns df) /\
        forall y, 2007 <= y <= 2023 -> In (str y) (num_columns df))
  /\ (emdat = None ->
      main fetch reshape backend indicators emdat = PipelineFailed).
Proof.
  destruct (extract_development_data_spec fetch reshape indicators) as (lg & Hrun & _).
  split.
  - intros pages. unfold main. rewrite Hrun. simpl fst.
    destruct (usable_frames fetch (batches indicators)) as [|f fs] eqn:Hf.
    + destruct (extract_disaster_data "PRI" emdat); discriminate.
    + destruct (reshape (f :: fs)) as [e|df] eqn:Hre; [discriminate|].
      destruct emdat as [d|]; [|discriminate]. simpl extract_disaster_data.
      destruct (df_loc identity_labels (year_labels 2007 2023) df) as [e|t] eqn:Hloc.
      * rewrite (transform_development_data_fails [df] 0 df 2007 2023 e eq_refl Hloc).
        discriminate.
      * intros _. exists d, df.
        destruct (df_loc_found _ _ _ _ Hloc) as [Hid Hyears].
        split; [reflexivity|]. split; [discriminate|]. split; [reflexivity|].
        split; [apply Hid; now left|]. split; [apply Hid; right; now left|].
        intros y Hy. apply Hyears. now apply year_labels_In.
  - intros ->. unfold main.
    destruct (fst (extract_development_data fetch reshape indicators)); reflexivity.
Qed.

Lemma main_success_needs_witness :
  exists pages,
    main fetch_only_A reshape_years (fun p => fails_on_I3 (page_indicator p))
         ["A"%string] (Some emdat_sample)
    = PipelineSucceeded pages /\
    exists d df,
      Some emdat_sample = Some d /\
      usable_frames fetch_only_A (batches ["A"%string]) <> [] /\
      reshape_years (usable_frames fetch_only_A (batches ["A"%string])) = inr df /\
      In "Country Code"%string (id_columns df) /\
      In "Indicator Name"%string (id_columns df) /\
      forall y, 2007 <= y <= 2023 -> In (str y) (num_columns df).
Proof.
  assert (E : exists pages,
             main fetch_only_A reshape_years (fun p => fails_on_I3 (page_indicator p))
                  ["A"%string] (Some emdat_sample)
             = PipelineSucceeded pages)
    by (eexists; vm_compute; reflexivity).
  destruct E as [pages E]. exists pages. split; [exact E|].
  exact (proj1 (main_success_needs fetch_only_A reshape_years
                  (fun p => fails_on_I3 (page_indicator p))
                  ["A"%string] (Some emdat_sample)) pages E).
Defined.

(** ** How much of a returned row is observed *)



